(** * AI orchestrator: generation pipeline

    A shallow embedding of [services/ai-orchestrator]: [config.py],
    [core_integration.py] and the [/orchestrate] handler of [service.py].

    Python values are an inductive type, a [dict] is an association list in
    insertion order with unique keys, a [str] is a [string] holding its UTF-8
    bytes, floats stay symbolic.  Exceptions are outcomes of a small
    state-and-error monad; the state counts the clock readings and records
    the calls made to the collaborators (file system, remote API). *)

From Stdlib Require Import String Ascii List ZArith NArith Arith Bool Lia DecimalString.
Import ListNotations.
Open Scope string_scope.
Set Warnings "-register-all".

(** ** Python values *)

(** Floats are never computed with: a float is the literal it was read from,
    one of the three JSON constants, a reading of [perf_counter], or a
    difference of two floats. *)
Inductive pyfloat : Type :=
| FLit (lexeme : string)
| FNaN
| FPosInf
| FNegInf
| FClock (reading : nat)
| FSub (a b : pyfloat).

Inductive pyval : Type :=
| PNone
| PBool (b : bool)
| PInt (z : Z)
| PFloat (f : pyfloat)
| PStr (s : string)
| PList (l : list pyval)
| PDict (d : list (string * pyval)).

Definition dict := list (string * pyval).

(** The value stored under [k], if any. *)
Fixpoint dict_lookup (d : dict) (k : string) : option pyval :=
  match d with
  | [] => None
  | (k', v) :: d' => if String.eqb k' k then Some v else dict_lookup d' k
  end.

(** [d.get(k, default)]. *)
Definition dict_get (d : dict) (k : string) (default : pyval) : pyval :=
  match dict_lookup d k with
  | Some v => v
  | None => default
  end.

(** [d[k] = v]: an existing key keeps its place and takes the new value, a
    new key goes last. *)
Fixpoint dict_set (d : dict) (k : string) (v : pyval) : dict :=
  match d with
  | [] => [(k, v)]
  | (k', v') :: d' =>
      if String.eqb k' k then (k, v) :: d' else (k', v') :: dict_set d' k v
  end.

(** Truth value of an object, as [or], [and], [not] and [if] test it.
    [nonzero] says which floats differ from zero. *)
Definition truthy (nonzero : pyfloat -> bool) (v : pyval) : bool :=
  match v with
  | PNone => false
  | PBool b => b
  | PInt z => negb (Z.eqb z 0)
  | PFloat f => nonzero f
  | PStr s => negb (String.eqb s "")
  | PList l => match l with [] => false | _ => true end
  | PDict d => match d with [] => false | _ => true end
  end.

Definition py_or (nonzero : pyfloat -> bool) (a b : pyval) : pyval :=
  if truthy nonzero a then a else b.

Definition type_name (v : pyval) : string :=
  match v with
  | PNone => "NoneType"
  | PBool _ => "bool"
  | PInt _ => "int"
  | PFloat _ => "float"
  | PStr _ => "str"
  | PList _ => "list"
  | PDict _ => "dict"
  end.

(** ** Exceptions

    An exception is its class and its string form [str(e)].  Every exception
    of the model is an instance of [Exception], so [except Exception] handles
    them all; what is raised past [Exception] (an interrupt, the
    cancellation of the task) is outside the model. *)
Inductive exn_class : Type :=
| Exception_
| ValueError
| JSONDecodeError
| AttributeError
| RecursionError
| OtherError (name : string).

Record exn : Type := mkExn { exn_cls : exn_class; exn_str : string }.

Inductive outcome (A : Type) : Type :=
| Return (a : A)
| Raise (e : exn).
Arguments Return {A} a.
Arguments Raise {A} e.

Definition is_JSONDecodeError (e : exn) : bool :=
  match exn_cls e with JSONDecodeError => true | _ => false end.

(** ** The JSON decoder behind [json.loads]

    The decoder of the standard library, in its default configuration
    (strict, no hooks).  Positions are kept as the length of the input that
    is left, and turned into an index when the error is built. *)
Module json.

Definition dquote : ascii := "034"%char.
Definition backslash : ascii := "\"%char.

Definition decimal (n : nat) : string := NilZero.string_of_uint (Nat.to_uint n).

Inductive perr : Type :=
| StopIteration (remaining : nat)
| ErrMsg (msg : string) (remaining : nat)
| RecursionErr (what : string)
| IntDigitsErr (digits : nat)
| LoopBound.

Definition presult (A : Type) : Type := (perr + A)%type.

Definition is_ws (c : ascii) : bool :=
Ascii.eqb c " " || Ascii.eqb c "009" || Ascii.eqb c "010" || Ascii.eqb c "013".

Fixpoint skip_ws (s : list ascii) : list ascii :=
match s with
| c :: r => if is_ws c then skip_ws r else s
| [] => []
end.

Definition is_digit (c : ascii) : bool :=
((48 <=? nat_of_ascii c) && (nat_of_ascii c <=? 57))%nat.

Fixpoint span_digits (s : list ascii) : list ascii * list ascii :=
match s with
| c :: r =>
    if is_digit c then let (ds, r') := span_digits r in (c :: ds, r')
    else ([], s)
| [] => ([], [])
end.

Definition hex_val (c : ascii) : option N :=
let n := N_of_ascii c in
if (48 <=? n)%N && (n <=? 57)%N then Some (n - 48)%N
else if (97 <=? n)%N && (n <=? 102)%N then Some (n - 87)%N
else if (65 <=? n)%N && (n <=? 70)%N then Some (n - 55)%N
else None.

Definition hex4 (a b c d : ascii) : option N :=
match hex_val a, hex_val b, hex_val c, hex_val d with
| Some x, Some y, Some z, Some w => Some (((x * 16 + y) * 16 + z) * 16 + w)%N
| _, _, _, _ => None
end.

(** [chr(cp)] as UTF-8 bytes (a lone surrogate takes the three-byte form). *)
Definition chr (cp : N) : string :=
let b (n : N) := ascii_of_N n in
if (cp <? 128)%N then String (b cp) ""
else if (cp <? 2048)%N then
  String (b (192 + cp / 64)%N) (String (b (128 + cp mod 64)%N) "")
else if (cp <? 65536)%N then
  String (b (224 + cp / 4096)%N)
    (String (b (128 + (cp / 64) mod 64)%N) (String (b (128 + cp mod 64)%N) ""))
else
  String (b (240 + cp / 262144)%N)
    (String (b (128 + (cp / 4096) mod 64)%N)
       (String (b (128 + (cp / 64) mod 64)%N) (String (b (128 + cp mod 64)%N) ""))).

Definition is_high_surrogate (c : N) : bool := (55296 <=? c)%N && (c <=? 56319)%N.
Definition is_low_surrogate (c : N) : bool := (56320 <=? c)%N && (c <=? 57343)%N.
Definition join_surrogates (hi lo : N) : N :=
(65536 + ((hi - 55296) * 1024 + (lo - 56320)))%N.

Definition unescape (c : ascii) : option ascii :=
if Ascii.eqb c dquote then Some dquote
else if Ascii.eqb c backslash then Some backslash
else if Ascii.eqb c "/" then Some "/"%char
else if Ascii.eqb c "b" then Some "008"%char
else if Ascii.eqb c "f" then Some "012"%char
else if Ascii.eqb c "n" then Some "010"%char
else if Ascii.eqb c "r" then Some "013"%char
else if Ascii.eqb c "t" then Some "009"%char
else None.

Definition snoc (acc : string) (c : ascii) : string := acc ++ String c "".

(** [scanstring]: [s] starts after the opening quote, [begin] is what was
  left at that quote. *)
Fixpoint scanstring (begin : nat) (s : list ascii) (acc : string)
: presult (string * list ascii) :=
match s with
| [] => inl (ErrMsg "Unterminated string starting at" begin)
| c :: r =>
    if Ascii.eqb c dquote then inr (acc, r)
    else if Ascii.eqb c backslash then
      match r with
      | [] => inl (ErrMsg "Unterminated string starting at" begin)
      | e :: r1 =>
          if Ascii.eqb e "u" then
            match r1 with
            | h1 :: h2 :: h3 :: h4 :: r2 =>
                match r2 with
                | [] => inl (ErrMsg "Invalid \uXXXX escape" (length r))
                | _ :: _ =>
                    match hex4 h1 h2 h3 h4 with
                    | None => inl (ErrMsg "Invalid \uXXXX escape" (length r))
                    | Some uni =>
                        match r2 with
                        | b :: u :: g1 :: g2 :: g3 :: g4 :: r3 =>
                            if is_high_surrogate uni && (0 <? length r3)%nat
                               && Ascii.eqb b backslash && Ascii.eqb u "u"
                            then
                              match hex4 g1 g2 g3 g4 with
                              | None =>
                                  inl (ErrMsg "Invalid \uXXXX escape" (S (length r3 + 4)))
                              | Some uni2 =>
                                  if is_low_surrogate uni2
                                  then scanstring begin r3
                                         (acc ++ chr (join_surrogates uni uni2))
                                  else scanstring begin r2 (acc ++ chr uni)
                              end
                            else scanstring begin r2 (acc ++ chr uni)
                        | _ => scanstring begin r2 (acc ++ chr uni)
                        end
                    end
                end
            | _ => inl (ErrMsg "Invalid \uXXXX escape" (length r))
            end
          else
            match unescape e with
            | Some ch => scanstring begin r1 (snoc acc ch)
            | None => inl (ErrMsg "Invalid \escape" (length s))
            end
      end
    else if (nat_of_ascii c <=? 31)%nat then
      inl (ErrMsg "Invalid control character at" (length s))
    else scanstring begin r (snoc acc c)
end.

Fixpoint int_of_digits (ds : list ascii) (acc : Z) : Z :=
match ds with
| [] => acc
| d :: r => int_of_digits r (acc * 10 + (Z.of_nat (nat_of_ascii d) - 48))%Z
end.

Definition starts_with (p : string) (s : list ascii) : bool :=
let lp := list_ascii_of_string p in
if list_eq_dec ascii_dec (firstn (length lp) s) lp then true else false.

(** The number grammar: an optional minus sign, then a zero or a non-zero
  digit followed by digits; then optionally a dot and one digit or more;
  then optionally e or E, an optional sign and one digit or more.
  [max_digits] is [sys.get_int_max_str_digits()], 0 meaning no limit. *)
Definition match_number (max_digits : nat) (s : list ascii)
: presult (pyval * list ascii) :=
let start := length s in
let '(neg, s1) :=
  match s with
  | c :: r => if Ascii.eqb c "-" then (true, r) else (false, s)
  | [] => (false, s)
  end in
match s1 with
| [] => inl (StopIteration start)
| c :: r =>
    let int_part :=
      if Ascii.eqb c "0" then Some ([c], r)
      else if is_digit c then let (ds, r') := span_digits r in Some (c :: ds, r')
      else None in
    match int_part with
    | None => inl (StopIteration start)
    | Some (ids, r1) =>
        let '(frac, r2) :=
          match r1 with
          | p :: d :: r' =>
              if Ascii.eqb p "." && is_digit d
              then let (ds, r'') := span_digits r' in (p :: d :: ds, r'')
              else ([], r1)
          | _ => ([], r1)
          end in
        let '(exp, r3) :=
          match r2 with
          | e :: r' =>
              if Ascii.eqb e "e" || Ascii.eqb e "E" then
                let '(sign, r'') :=
                  match r' with
                  | sg :: t => if Ascii.eqb sg "-" || Ascii.eqb sg "+"
                               then ([sg], t) else ([], r')
                  | [] => ([], r')
                  end in
                let (ds, r''') := span_digits r'' in
                match ds with
                | [] => ([], r2)
                | _ :: _ => ((e :: sign ++ ds)%list, r''')
                end
              else ([], r2)
          | [] => ([], r2)
          end in
        let sign_chars := if neg then ["-"%char] else [] in
        match frac, exp with
        | [], [] =>
            if ((0 <? max_digits) && (max_digits <? length ids))%nat
            then inl (IntDigitsErr (length ids))
            else
              let z := int_of_digits ids 0 in
              inr (PInt (if neg then (- z)%Z else z), r3)
        | _, _ =>
            inr (PFloat (FLit (string_of_list_ascii (sign_chars ++ ids ++ frac ++ exp)%list)), r3)
        end
    end
end.

Section Containers.
(** [scan_once], as the decoder hands it to its array and object readers. *)
Variable scan : list ascii -> presult (pyval * list ascii).

(** The loop of the array reader; [s] is at the next element.  [bound]
limits the iterations and is never reached (see [parse_array]). *)
Fixpoint array_loop (bound : nat) (s : list ascii) (values : list pyval)
: presult (pyval * list ascii) :=
match bound with
| O => inl LoopBound
| S bound' =>
  match scan s with
  | inl e => inl e
  | inr (v, r) =>
      let values' := (values ++ [v])%list in
      let r1 := skip_ws r in
      match r1 with
      | c :: r2 =>
          if Ascii.eqb c "]" then inr (PList values', r2)
          else if Ascii.eqb c "," then array_loop bound' (skip_ws r2) values'
          else inl (ErrMsg "Expecting ',' delimiter" (length r1))
      | [] => inl (ErrMsg "Expecting ',' delimiter" 0)
      end
  end
end.

(** [s] starts after the opening bracket. *)
Definition parse_array (s : list ascii) : presult (pyval * list ascii) :=
let s1 := skip_ws s in
match s1 with
| c :: r =>
  if Ascii.eqb c "]" then inr (PList [], r)
  else array_loop (S (length s1)) s1 []
| [] => array_loop 1 s1 []
end.

(** The loop of the object reader; [s] is at the next key. *)
Fixpoint object_loop (bound : nat) (s : list ascii) (pairs : dict)
: presult (pyval * list ascii) :=
match bound with
| O => inl LoopBound
| S bound' =>
  match s with
  | q :: r =>
      if Ascii.eqb q dquote then
        match scanstring (length s) r "" with
        | inl e => inl e
        | inr (key, r1) =>
            let r2 := skip_ws r1 in
            match r2 with
            | c :: r3 =>
                if Ascii.eqb c ":" then
                  match scan (skip_ws r3) with
                  | inl e => inl e
                  | inr (v, r5) =>
                      let pairs' := dict_set pairs key v in
                      let r6 := skip_ws r5 in
                      match r6 with
                      | c' :: r7 =>
                          if Ascii.eqb c' "}" then inr (PDict pairs', r7)
                          else if Ascii.eqb c' ","
                          then object_loop bound' (skip_ws r7) pairs'
                          else inl (ErrMsg "Expecting ',' delimiter" (length r6))
                      | [] => inl (ErrMsg "Expecting ',' delimiter" 0)
                      end
                  end
                else inl (ErrMsg "Expecting ':' delimiter" (length r2))
            | [] => inl (ErrMsg "Expecting ':' delimiter" 0)
            end
        end
      else inl (ErrMsg "Expecting property name enclosed in double quotes" (length s))
  | [] => inl (ErrMsg "Expecting property name enclosed in double quotes" 0)
  end
end.

(** [s] starts after the opening brace. *)
Definition parse_object (s : list ascii) : presult (pyval * list ascii) :=
let s1 := skip_ws s in
match s1 with
| c :: r =>
  if Ascii.eqb c "}" then inr (PDict [], r)
  else object_loop (S (length s1)) s1 []
| [] => object_loop 1 s1 []
end.
End Containers.

(** [scan_once]: [depth] is the number of nested containers the interpreter's
  recursion limit still allows. *)
Fixpoint scan_once (max_digits depth : nat) (s : list ascii) {struct depth}
: presult (pyval * list ascii) :=
match s with
| [] => inl (StopIteration 0)
| c :: r =>
    if Ascii.eqb c dquote then
      match scanstring (length s) r "" with
      | inl e => inl e
      | inr (str, r') => inr (PStr str, r')
      end
    else if Ascii.eqb c "{" then
      match depth with
      | O => inl (RecursionErr "object")
      | S d => parse_object (scan_once max_digits d) r
      end
    else if Ascii.eqb c "[" then
      match depth with
      | O => inl (RecursionErr "array")
      | S d => parse_array (scan_once max_digits d) r
      end
    else if Ascii.eqb c "n" && starts_with "ull" r then inr (PNone, skipn 3 r)
    else if Ascii.eqb c "t" && starts_with "rue" r then inr (PBool true, skipn 3 r)
    else if Ascii.eqb c "f" && starts_with "alse" r then inr (PBool false, skipn 4 r)
    else if Ascii.eqb c "N" && starts_with "aN" r then inr (PFloat FNaN, skipn 2 r)
    else if Ascii.eqb c "I" && starts_with "nfinity" r then inr (PFloat FPosInf, skipn 7 r)
    else if Ascii.eqb c "-" && starts_with "Infinity" r then inr (PFloat FNegInf, skipn 8 r)
    else match_number max_digits s
end.

(** [str(JSONDecodeError(msg, doc, pos))]. *)
Definition count_newlines (s : list ascii) : nat :=
length (filter (fun c => Ascii.eqb c "010") s).

Fixpoint since_newline (rev_prefix : list ascii) : nat :=
match rev_prefix with
| [] => 0
| c :: r => if Ascii.eqb c "010" then 0 else S (since_newline r)
end.

Definition decode_error (msg : string) (doc : list ascii) (pos : nat) : exn :=
let before := firstn pos doc in
let lineno := S (count_newlines before) in
let colno := S (since_newline (rev before)) in
mkExn JSONDecodeError
  (msg ++ ": line " ++ decimal lineno ++ " column " ++ decimal colno
       ++ " (char " ++ decimal pos ++ ")").

Definition bom : string := String "239" (String "187" (String "191" "")).

Definition loads (max_digits depth : nat) (s : string) : outcome pyval :=
let doc := list_ascii_of_string s in
let at_ (remaining : nat) := length doc - remaining in
if String.prefix bom s then
  Raise (decode_error "Unexpected UTF-8 BOM (decode using utf-8-sig)" doc 0)
else
  match scan_once max_digits depth (skip_ws doc) with
  | inl (StopIteration k) => Raise (decode_error "Expecting value" doc (at_ k))
  | inl (ErrMsg msg k) => Raise (decode_error msg doc (at_ k))
  | inl (RecursionErr what) =>
      Raise (mkExn RecursionError
               ("maximum recursion depth exceeded while decoding a JSON "
                  ++ what ++ " from a unicode string"))
  | inl (IntDigitsErr n) =>
      Raise (mkExn ValueError
               ("Exceeds the limit (" ++ decimal max_digits
                  ++ " digits) for integer string conversion: value has "
                  ++ decimal n
                  ++ " digits; use sys.set_int_max_str_digits() to increase the limit"))
  | inl LoopBound => Raise (mkExn RecursionError "loop bound")
  | inr (v, r) =>
      match skip_ws r with
      | [] => Return v
      | (_ :: _) as r' => Raise (decode_error "Extra data" doc (at_ (length r')))
      end
  end.

End json.


(** ** Collaborators *)

(** A [pathlib] path, kept as it is built: [Path(dir)] and [p / name]. *)
Inductive Path : Type :=
| Path_ (s : string)
| PathDiv (p : Path) (name : string).

(** The remote model API: what [messages.create] is called with and what it
    answers. *)
Module anthropic.
Record Client : Type := AsyncAnthropic { api_key : string }.

Record create_kwargs : Type := {
  model : string;
  max_tokens : Z;
  temperature : pyfloat;
  messages : list (string * string)   (* role, content *)
}.

(** A content block; [text] is absent on blocks that carry none. *)
Record Block : Type := { block_type : string; text : option string }.

Record Message : Type := { content : list Block }.
End anthropic.

(** The optional templating engine. *)
Module poml.
Record PomlFile : Type := { source : Path }.

(** A rendering context: the variables set, in the order of the calls. *)
Record PomlContext : Type := { bindings : list (string * pyval) }.

Definition PomlContext_ : PomlContext := {| bindings := [] |}.

Definition set_variable (ctx : PomlContext) (k : string) (v : pyval) : PomlContext :=
  {| bindings := (bindings ctx ++ [(k, v)])%list |}.
End poml.

(** The calls made to the outside so far, each recorded as it is made. *)
Inductive event : Type :=
| Mkdir (p : Path)
| NewClient (c : anthropic.Client)
| MessagesCreate (c : anthropic.Client) (kw : anthropic.create_kwargs).

Record world : Type := { ticks : nat; trace : list event }.

(** Everything the code does not decide itself: whether the templating
    engine could be imported, which floats are zero, how deep the decoder may
    still recurse and how long an integer literal may be, and what the file
    system, the engine and the remote model answer. *)
Record Runtime : Type := {
  HAS_POML : bool;
  nonzero : pyfloat -> bool;
  recursion_room : nat;
  int_max_str_digits : nat;
  Path_exists : Path -> outcome bool;
  Path_mkdir : Path -> outcome unit;
  PomlFile_from_file : Path -> outcome poml.PomlFile;
  PomlFile_render : poml.PomlFile -> poml.PomlContext -> outcome string;
  messages_create : anthropic.Client -> anthropic.create_kwargs -> outcome anthropic.Message
}.

(** ** State and exceptions *)

Definition M (A : Type) : Type := world -> outcome A * world.

Definition ret {A : Type} (a : A) : M A := fun w => (Return a, w).

Definition raise {A : Type} (e : exn) : M A := fun w => (Raise e, w).

Definition bind {A B : Type} (m : M A) (k : A -> M B) : M B :=
  fun w =>
    match m w with
    | (Return a, w') => k a w'
    | (Raise e, w') => (Raise e, w')
    end.

Notation "x <- m ;; k" := (bind m (fun x => k))
  (at level 61, m at next level, right associativity).
Notation "m ;;; k" := (bind m (fun _ => k))
  (at level 61, right associativity).

(** [try: body except C as e: handler e], [handles] telling the instances of
    [C]. *)
Definition try_except {A : Type} (body : M A) (handles : exn -> bool)
  (handler : exn -> M A) : M A :=
  fun w =>
    match body w with
    | (Return a, w') => (Return a, w')
    | (Raise e, w') => if handles e then handler e w' else (Raise e, w')
    end.

Definition any_Exception (e : exn) : bool := true.

Definition lift {A : Type} (o : outcome A) : M A := fun w => (o, w).

(** The world after one more call to the outside. *)
Definition logged (ev : event) (w : world) : world :=
  {| ticks := ticks w; trace := (trace w ++ [ev])%list |}.

(** The world after one more reading of the clock. *)
Definition tick (w : world) : world :=
  {| ticks := S (ticks w); trace := trace w |}.

Definition emit (ev : event) : M unit := fun w => (Return tt, logged ev w).

Definition perf_counter : M pyfloat := fun w => (Return (FClock (ticks w)), tick w).

Definition json_loads (rt : Runtime) (s : string) : M pyval :=
  lift (json.loads (int_max_str_digits rt) (recursion_room rt) s).

(** [obj.get(key, default)]: a method of [dict] only. *)
Definition get (obj : pyval) (key : string) (default : pyval) : M pyval :=
  match obj with
  | PDict d => ret (dict_get d key default)
  | _ =>
      raise (mkExn AttributeError
               ("'" ++ type_name obj ++ "' object has no attribute 'get'"))
  end.

(** [x or {}] and [x or []]: [None] and the empty container both give the
    empty container. *)
Definition or_empty {A : Type} (x : option (list A)) : list A :=
  match x with
  | Some l => l
  | None => []
  end.

(** ** config.py *)
Module config.

Record IntegratedConfig : Type := {
  anthropic_api_key : string;
  claude_model : string;
  max_tokens : Z;
  temperature : pyfloat;
  templates_dir : string
}.

Definition getenv (environ : string -> option string) (key default : string) : string :=
  match environ key with
  | Some v => v
  | None => default
  end.

(** [IntegratedConfig()]: the class defaults, read from the environment
    when the module is loaded.  [env_max_tokens] and [env_temperature] are
    [MAX_TOKENS] and [TEMPERATURE] after [int] and [float], when they are
    set. *)
Definition IntegratedConfig_ (environ : string -> option string)
    (env_max_tokens : option Z) (env_temperature : option pyfloat) : IntegratedConfig :=
  {| anthropic_api_key := getenv environ "ANTHROPIC_API_KEY" "";
     claude_model := getenv environ "CLAUDE_MODEL" "claude-4";
     max_tokens := match env_max_tokens with Some n => n | None => 100000%Z end;
     temperature := match env_temperature with Some t => t | None => FLit "0.7" end;
     templates_dir := getenv environ "TEMPLATES_DIR" "./templates" |}.

Definition validate (rt : Runtime) (self : IntegratedConfig) : M unit :=
  if String.eqb (anthropic_api_key self) "" then
    raise (mkExn ValueError "ANTHROPIC_API_KEY is required")
  else
    emit (Mkdir (Path_ (templates_dir self))) ;;;
    lift (Path_mkdir rt (Path_ (templates_dir self))).

End config.

(** ** core_integration.py *)
Module core_integration.

Module IntegratedResponse.
Record t : Type := {
  success : bool;
  response : pyval;
  error : option string;
  metadata : option dict;
  confidence_score : pyval;
  reasoning_chain : pyval;
  localized_elements : pyval
}.
End IntegratedResponse.

Module OrchestrationRequest.
Record t : Type := {
  prompt : string;
  context : option dict;
  tools : option (list string);
  max_tokens : option Z;
  temperature : option pyfloat;
  template_name : option string;
  variables : option dict
}.
End OrchestrationRequest.

Module OrchestrationResponse.
Record t : Type := {
  content : pyval;
  usage : list (string * Z);
  model : string;
  tools_used : list string;
  metadata : dict;
  confidence_score : pyval;
  reasoning_chain : pyval
}.
End OrchestrationResponse.

(** The object [self]: its configuration, its client and the names of the
    tool registry. *)
Record POMLClaudeToolTrainIntegration : Type := {
  config : config.IntegratedConfig;
  claude : anthropic.Client;
  tools : list string
}.

(** [__init__]; [defaults] is [IntegratedConfig()]. *)
Definition __init__ (rt : Runtime) (defaults : config.IntegratedConfig)
    (config : option config.IntegratedConfig) : M POMLClaudeToolTrainIntegration :=
  let cfg := match config with Some c => c | None => defaults end in
  config.validate rt cfg ;;;
  let client := anthropic.AsyncAnthropic (config.anthropic_api_key cfg) in
  emit (NewClient client) ;;;
  ret {| config := cfg;
         claude := client;
         tools := ["repository_search"; "code_generation"; "validation"] |}.

(** [if template_name and HAS_POML:] an absent name and the empty name
    are both false. *)
Definition _render (rt : Runtime) (self : POMLClaudeToolTrainIntegration)
    (prompt : string) (template_name : option string) (variables : option dict)
  : M string :=
  match template_name with
  | Some name =>
      if negb (String.eqb name "") && HAS_POML rt then
        let tpl := PathDiv (Path_ (config.templates_dir (config self)))
                     (name ++ ".poml") in
        present <- lift (Path_exists rt tpl) ;;
        if present then
          pf <- lift (PomlFile_from_file rt tpl) ;;
          let ctx := fold_left (fun ctx kv => poml.set_variable ctx (fst kv) (snd kv))
                       (or_empty variables) poml.PomlContext_ in
          lift (PomlFile_render rt pf ctx)
        else ret prompt
      else ret prompt
  | None => ret prompt
  end.

(** The text of the blocks, joined; a block without text gives the empty
    string. *)
Definition join_text (blocks : list anthropic.Block) : string :=
  String.concat ""
    (map (fun b => match anthropic.text b with Some t => t | None => "" end) blocks).

(** The keyword arguments of the call to [messages.create]. *)
Definition create_call (self : POMLClaudeToolTrainIntegration) (rendered : string)
  : anthropic.create_kwargs :=
  {| anthropic.model := config.claude_model (config self);
     anthropic.max_tokens := config.max_tokens (config self);
     anthropic.temperature := config.temperature (config self);
     anthropic.messages := [("user", rendered)] |}.

Definition generate (rt : Runtime) (self : POMLClaudeToolTrainIntegration)
    (prompt : string) (template_name : option string) (variables : option dict)
  : M IntegratedResponse.t :=
  t0 <- perf_counter ;;
  try_except
    (rendered <- _render rt self prompt template_name (Some (or_empty variables)) ;;
     let kw := create_call self rendered in
     emit (MessagesCreate (claude self) kw) ;;;
     rsp <- lift (messages_create rt (claude self) kw) ;;
     let text := join_text (anthropic.content rsp) in
     try_except
       (obj <- json_loads rt text ;;
        primary <- get obj "primary_response" (PStr text) ;;
        t1 <- perf_counter ;;
        confidence <- get obj "confidence_score" PNone ;;
        reasoning <- get obj "reasoning_chain" (PList []) ;;
        localized <- get obj "localized_elements" (PList []) ;;
        ret {| IntegratedResponse.success := true;
               IntegratedResponse.response := primary;
               IntegratedResponse.error := None;
               IntegratedResponse.metadata :=
                 Some [("processing_time", PFloat (FSub t1 t0));
                       ("model_used", PStr (config.claude_model (config self)))];
               IntegratedResponse.confidence_score := confidence;
               IntegratedResponse.reasoning_chain := reasoning;
               IntegratedResponse.localized_elements := localized |})
       is_JSONDecodeError
       (fun _ =>
          t1 <- perf_counter ;;
          ret {| IntegratedResponse.success := true;
                 IntegratedResponse.response := PStr text;
                 IntegratedResponse.error := None;
                 IntegratedResponse.metadata :=
                   Some [("processing_time", PFloat (FSub t1 t0));
                         ("model_used", PStr (config.claude_model (config self)))];
                 IntegratedResponse.confidence_score := PNone;
                 IntegratedResponse.reasoning_chain := PNone;
                 IntegratedResponse.localized_elements := PNone |}))
    any_Exception
    (fun e =>
       t1 <- perf_counter ;;
       ret {| IntegratedResponse.success := false;
              IntegratedResponse.response := PNone;
              IntegratedResponse.error := Some (exn_str e);
              IntegratedResponse.metadata :=
                Some [("processing_time", PFloat (FSub t1 t0))];
              IntegratedResponse.confidence_score := PNone;
              IntegratedResponse.reasoning_chain := PNone;
              IntegratedResponse.localized_elements := PNone |}).

(** [x or default] on an optional string. *)
Definition str_or (x : option string) (default : string) : string :=
  match x with
  | Some s => if String.eqb s "" then default else s
  | None => default
  end.

Definition opt_dict (d : option dict) : pyval :=
  match d with Some d' => PDict d' | None => PNone end.

Definition opt_strs (l : option (list string)) : pyval :=
  match l with Some l' => PList (map PStr l') | None => PNone end.

(** [POMLClaudeOrchestrator.orchestrate], the adapter for the legacy
    caller. *)
Definition orchestrate (rt : Runtime) (self : POMLClaudeToolTrainIntegration)
    (request : OrchestrationRequest.t) : M OrchestrationResponse.t :=
  result <- generate rt self
              (OrchestrationRequest.prompt request)
              (OrchestrationRequest.template_name request)
              (Some (dict_set
                       (dict_set (or_empty (OrchestrationRequest.variables request))
                          "context" (opt_dict (OrchestrationRequest.context request)))
                       "tools" (opt_strs (OrchestrationRequest.tools request)))) ;;
  if IntegratedResponse.success result then
    let usage := [("input_tokens", 0%Z); ("output_tokens", 0%Z)] in
    ret {| OrchestrationResponse.content :=
             py_or (nonzero rt) (IntegratedResponse.response result) (PStr "");
           OrchestrationResponse.usage := usage;
           OrchestrationResponse.model := config.claude_model (config self);
           OrchestrationResponse.tools_used :=
             or_empty (OrchestrationRequest.tools request);
           OrchestrationResponse.metadata :=
             or_empty (IntegratedResponse.metadata result);
           OrchestrationResponse.confidence_score :=
             IntegratedResponse.confidence_score result;
           OrchestrationResponse.reasoning_chain :=
             IntegratedResponse.reasoning_chain result |}
  else
    raise (mkExn Exception_
             (str_or (IntegratedResponse.error result) "Orchestration failed")).

End core_integration.

(** ** service.py *)
Module service.

Record GeneratePayload : Type := {
  prompt : string;
  template_name : option string;
  variables : option dict
}.

(** The module-level objects [cfg] and [ai]. *)
Record app : Type := {
  cfg : config.IntegratedConfig;
  ai : core_integration.POMLClaudeToolTrainIntegration
}.

(** Loading the module: [cfg = IntegratedConfig()] and
    [ai = POMLClaudeToolTrainIntegration(cfg)]. *)
Definition load (rt : Runtime) (defaults : config.IntegratedConfig) : M app :=
  let cfg := defaults in
  ai <- core_integration.__init__ rt defaults (Some cfg) ;;
  ret {| cfg := cfg; ai := ai |}.

(** [POST /orchestrate]: the dict the handler returns. *)
Definition orchestrate (rt : Runtime) (a : app) (p : GeneratePayload) : M dict :=
  res <- core_integration.generate rt (ai a) (prompt p) (template_name p) (variables p) ;;
  ret [("content", core_integration.IntegratedResponse.response res);
       ("usage", PDict [("input_tokens", PInt 0); ("output_tokens", PInt 0)]);
       ("model", PStr (config.claude_model (cfg a)));
       ("tools_used", PList []);
       ("metadata", PDict (or_empty (core_integration.IntegratedResponse.metadata res)));
       ("confidence_score", core_integration.IntegratedResponse.confidence_score res);
       ("reasoning_chain", core_integration.IntegratedResponse.reasoning_chain res)].

End service.

(** ** State and exceptions over any state

    The same monad as [M], for the parts of the code whose state is not the
    [world] above. *)

Definition St (S A : Type) : Type := S -> outcome A * S.

Definition st_ret {S A : Type} (a : A) : St S A := fun s => (Return a, s).

Definition st_bind {S A B : Type} (m : St S A) (k : A -> St S B) : St S B :=
  fun s =>
    match m s with
    | (Return a, s') => k a s'
    | (Raise e, s') => (Raise e, s')
    end.

Definition st_try {S A : Type} (body : St S A) (handles : exn -> bool)
  (handler : exn -> St S A) : St S A :=
  fun s =>
    match body s with
    | (Return a, s') => (Return a, s')
    | (Raise e, s') => if handles e then handler e s' else (Raise e, s')
    end.

Notation "x <~ m ;; k" := (st_bind m (fun x => k))
  (at level 61, m at next level, right associativity).
Notation "m ;;~ k" := (st_bind m (fun _ => k))
  (at level 61, right associativity).

(** ** core_integration.py: the tools and the health check *)

(** The three tools of the registry; they are placeholders and are not
    called by the generation path. *)
Module tools_registry.
Definition _tool_repository_search (query : string) : dict :=
  [("status", PStr "not_implemented"); ("query", PStr query)].

Definition _tool_code_generation (spec : dict) : string :=
  "# Code generation placeholder".

Definition _tool_validation (code : string) : dict :=
  [("valid", PBool true); ("issues", PList [])].
End tools_registry.

Module health.
(** The keyword arguments of the ping: no temperature is passed. *)
Record create_kwargs : Type := {
  model : string;
  max_tokens : Z;
  messages : list (string * string)
}.

(** The runtime, with the answer of the remote model to such a call. *)
Record Probe : Type := {
  runtime : Runtime;
  messages_create : anthropic.Client -> create_kwargs -> outcome anthropic.Message
}.

(** The state of a health check: the pings sent so far. *)
Definition pings : Type := list (anthropic.Client * create_kwargs).

Definition create (pr : Probe) (c : anthropic.Client) (kw : create_kwargs)
  : St pings anthropic.Message :=
  fun sent => (messages_create pr c kw, (sent ++ [(c, kw)])%list).

Definition health_check (pr : Probe)
    (self : core_integration.POMLClaudeToolTrainIntegration) : St pings dict :=
  st_try
    (response <~ create pr (core_integration.claude self)
                   {| model := config.claude_model (core_integration.config self);
                      max_tokens := 10;
                      messages := [("user", "ping")] |} ;;
     st_ret [("status", PStr "healthy");
             ("model", PStr (config.claude_model (core_integration.config self)));
             ("has_poml", PBool (HAS_POML (runtime pr)));
             ("tools_available", PList (map PStr (core_integration.tools self)))])
    any_Exception
    (fun e => st_ret [("status", PStr "unhealthy"); ("error", PStr (exn_str e))]).
End health.

(** ** service.py: the other two endpoints *)
Module endpoints.
(** [res.__dict__]: the fields of the result, in the order of the
    dataclass. *)
Definition __dict__ (res : core_integration.IntegratedResponse.t) : dict :=
  [("success", PBool (core_integration.IntegratedResponse.success res));
   ("response", core_integration.IntegratedResponse.response res);
   ("error",
     match core_integration.IntegratedResponse.error res with
     | Some msg => PStr msg
     | None => PNone
     end);
   ("metadata",
     match core_integration.IntegratedResponse.metadata res with
     | Some d => PDict d
     | None => PNone
     end);
   ("confidence_score", core_integration.IntegratedResponse.confidence_score res);
   ("reasoning_chain", core_integration.IntegratedResponse.reasoning_chain res);
   ("localized_elements", core_integration.IntegratedResponse.localized_elements res)].

(** [GET /health]. *)
Definition health (pr : health.Probe) (a : service.app) : St health.pings dict :=
  health.health_check pr (service.ai a).

(** [POST /generate]. *)
Definition generate (rt : Runtime) (a : service.app) (p : service.GeneratePayload)
  : M dict :=
  res <- core_integration.generate rt (service.ai a) (service.prompt p)
           (service.template_name p) (service.variables p) ;;
  ret (__dict__ res).
End endpoints.

(** ** quick_start.py

    The working directory is a table from relative paths to directories and
    files, the standard output a list of lines.  [print], [mkdir] and
    [write_text] are the calls on a platform that lets them through: they
    fail as [pathlib] does on a name that is taken, and in no other way.
    What a platform can add to that (a stream that cannot encode a line, a
    directory that may not be written to, a full disk) comes with
    [platform] below, and [setup_project_on] is the function on any
    platform. *)
Module quick_start.
Inductive node : Type :=
| Dir
| File (content : string).

Record machine : Type := { files : list (string * node); stdout : list string }.

Fixpoint lookup (fs : list (string * node)) (p : string) : option node :=
  match fs with
  | [] => None
  | (p', n) :: fs' => if String.eqb p' p then Some n else lookup fs' p
  end.

Fixpoint store (fs : list (string * node)) (p : string) (n : node)
  : list (string * node) :=
  match fs with
  | [] => [(p, n)]
  | (p', n') :: fs' =>
      if String.eqb p' p then (p, n) :: fs' else (p', n') :: store fs' p n
  end.

Definition print (line : string) : St machine unit :=
  fun m => (Return tt, {| files := files m; stdout := (stdout m ++ [line])%list |}).

Definition OSError (cls : string) (errno : string) (what : string) (p : string) : exn :=
  mkExn (OtherError cls) ("[Errno " ++ errno ++ "] " ++ what ++ ": '" ++ p ++ "'").

(** [Path(d).mkdir(exist_ok=True)] for a name [d] in the working directory. *)
Definition mkdir (d : string) : St machine unit :=
  fun m =>
    match lookup (files m) d with
    | Some Dir => (Return tt, m)
    | Some (File _) => (Raise (OSError "FileExistsError" "17" "File exists" d), m)
    | None => (Return tt, {| files := store (files m) d Dir; stdout := stdout m |})
    end.

(** [Path(dir/name).write_text(content)]. *)
Definition write_text (dir name content : string) : St machine unit :=
  fun m =>
    let p := dir ++ "/" ++ name in
    match lookup (files m) dir with
    | None => (Raise (OSError "FileNotFoundError" "2" "No such file or directory" p), m)
    | Some (File _) => (Raise (OSError "NotADirectoryError" "20" "Not a directory" p), m)
    | Some Dir =>
        match lookup (files m) p with
        | Some Dir => (Raise (OSError "IsADirectoryError" "21" "Is a directory" p), m)
        | _ => (Return tt,
                {| files := store (files m) p (File content); stdout := stdout m |})
        end
    end.

(** [for d in ds: body(d)]. *)
Fixpoint for_each (ds : list string) (body : string -> St machine unit)
  : St machine unit :=
  match ds with
  | [] => st_ret tt
  | d :: ds' => body d ;;~ for_each ds' body
  end.

Definition newline : string := String "010" "".

Definition sample_template : string :=
  String.concat newline
    ["<poml>";
     "<stylesheet>";
     "output-format: structured-json";
     "verbosity: detailed";
     "reasoning-depth: multi-hop";
     "</stylesheet>";
     "<role>Expert AI assistant with integrated POML-Claude-ToolTrain</role>";
     "<task>Process requests with systematic reasoning</task>";
     "<output-format>{" ++ String json.dquote "response" ++ String json.dquote ":"
        ++ String json.dquote "..." ++ String json.dquote ","
        ++ String json.dquote "confidence_score" ++ String json.dquote ":0.95}"
        ++ "</output-format>";
     "</poml>"].

Definition directories : list string :=
  ["templates"; "cache"; "models"; "data"; "logs"; "repos"].

Definition rocket : string := String "240" (String "159" (String "154" (String "128" ""))).
Definition check_mark : string := String "226" (String "156" (String "133" "")).

Definition opening_line : string := rocket ++ " Setting up AI Orchestrator...".
Definition closing_line : string := check_mark ++ " Templates & folders ready".

Definition setup_project : St machine unit :=
  print opening_line ;;~
  for_each directories mkdir ;;~
  write_text "templates" "sample_template.poml" sample_template ;;~
  print closing_line.

(** *** The platform

    Each call can also end in an exception of the platform's own: [print]
    in [UnicodeEncodeError] when the stream cannot encode the line,
    [Path.mkdir] and [open] in [PermissionError] or another [OSError], the
    write that follows [open] in an [OSError] that leaves the beginning of
    the text in the file.  What is refused, and with which exception, may
    depend on the directories and files there are.  A refused [print]
    writes nothing, a refused [mkdir] or [open] changes nothing. *)
Inductive request : Type :=
| Print (line : string)
| Mkdir (d : string)
| Open (p : string)
| Write (p : string).

Record platform : Type :=
  { refuses : list (string * node) -> request -> option exn;
    (** how much of the text had reached the file when the write failed *)
    written : list (string * node) -> string -> nat }.

(** [call], unless the platform refuses the request. *)
Definition asking (pf : platform) (rq : request) (call : St machine unit)
  : St machine unit :=
  fun m =>
    match refuses pf (files m) rq with
    | Some e => (Raise e, m)
    | None => call m
    end.

Definition print_on (pf : platform) (line : string) : St machine unit :=
  asking pf (Print line) (print line).

Definition mkdir_on (pf : platform) (d : string) : St machine unit :=
  asking pf (Mkdir d) (mkdir d).

(** [write_text] opens the file for writing, which creates or empties it,
    and then writes the text. *)
Definition write_text_on (pf : platform) (dir name content : string)
  : St machine unit :=
  let p := dir ++ "/" ++ name in
  asking pf (Open p) (write_text dir name "") ;;~
  (fun m =>
     match refuses pf (files m) (Write p) with
     | Some e =>
         (Raise e,
          {| files := store (files m) p
                        (File (substring 0 (written pf (files m) p) content));
             stdout := stdout m |})
     | None =>
         (Return tt, {| files := store (files m) p (File content); stdout := stdout m |})
     end).

Definition setup_project_on (pf : platform) : St machine unit :=
  print_on pf opening_line ;;~
  for_each directories (mkdir_on pf) ;;~
  write_text_on pf "templates" "sample_template.poml" sample_template ;;~
  print_on pf closing_line.

(** The platform that refuses nothing. *)
Definition willing : platform :=
  {| refuses := fun _ _ => None; written := fun _ _ => 0 |}.
End quick_start.

(** ** Notions used in the statements *)

(** The dict literal of [orchestrate]: the variables of the request, then
    the keys [context] and [tools]. *)
Definition merged_variables (request : core_integration.OrchestrationRequest.t) : dict :=
  dict_set
    (dict_set (or_empty (core_integration.OrchestrationRequest.variables request))
       "context" (core_integration.opt_dict (core_integration.OrchestrationRequest.context request)))
    "tools" (core_integration.opt_strs (core_integration.OrchestrationRequest.tools request)).

(** The characters a JSON value can begin with. *)
Definition may_start_json (c : ascii) : bool :=
  Ascii.eqb c json.dquote || Ascii.eqb c "{" || Ascii.eqb c "[" || Ascii.eqb c "-"
  || json.is_digit c
  || Ascii.eqb c "n" || Ascii.eqb c "t" || Ascii.eqb c "f"
  || Ascii.eqb c "N" || Ascii.eqb c "I".


(** ** Sample collaborators

    Concrete runtimes on which the definitions are run: no templating engine,
    an empty template directory, and a remote model with a fixed answer. *)

Definition dq (s : string) : string :=
  String json.dquote (s ++ String json.dquote "").

Definition replying (answer : outcome anthropic.Message) : Runtime :=
  {| HAS_POML := false;
     nonzero := fun _ => true;
     recursion_room := 994;
     int_max_str_digits := 4300;
     Path_exists := fun _ => Return false;
     Path_mkdir := fun _ => Return tt;
     PomlFile_from_file := fun p => Return {| poml.source := p |};
     PomlFile_render := fun _ _ => Return "";
     messages_create := fun _ _ => answer |}.

Definition text_reply (s : string) : outcome anthropic.Message :=
  Return {| anthropic.content :=
              [{| anthropic.block_type := "text"; anthropic.text := Some s |}] |}.

Definition sample_config : config.IntegratedConfig :=
  {| config.anthropic_api_key := "sk-test";
     config.claude_model := "claude-4";
     config.max_tokens := 100000;
     config.temperature := FLit "0.7";
     config.templates_dir := "./templates" |}.

Definition sample_self : core_integration.POMLClaudeToolTrainIntegration :=
  {| core_integration.config := sample_config;
     core_integration.claude := anthropic.AsyncAnthropic "sk-test";
     core_integration.tools := ["repository_search"; "code_generation"; "validation"] |}.

Definition start : world := {| ticks := 0; trace := [] |}.

Fixpoint Path_eqb (p q : Path) : bool :=
  match p, q with
  | Path_ a, Path_ b => String.eqb a b
  | PathDiv p' a, PathDiv q' b => Path_eqb p' q' && String.eqb a b
  | _, _ => false
  end.

(** A runtime with the templating engine and one template, [greeting]. *)
Definition templating (answer : outcome anthropic.Message) : Runtime :=
  {| HAS_POML := true;
     nonzero := fun _ => true;
     recursion_room := 994;
     int_max_str_digits := 4300;
     Path_exists :=
       fun p => Return (Path_eqb p (PathDiv (Path_ "./templates") "greeting.poml"));
     Path_mkdir := fun _ => Return tt;
     PomlFile_from_file := fun p => Return {| poml.source := p |};
     PomlFile_render := fun _ _ => Return "Greet the user.";
     messages_create := fun _ _ => answer |}.

(** A runtime with the engine, where loading any template fails. *)
Definition broken_template : Runtime :=
  {| HAS_POML := true;
     nonzero := fun _ => true;
     recursion_room := 994;
     int_max_str_digits := 4300;
     Path_exists := fun _ => Return true;
     Path_mkdir := fun _ => Return tt;
     PomlFile_from_file :=
       fun _ => Raise (mkExn (OtherError "PomlError") "unexpected end of template");
     PomlFile_render := fun _ _ => Return "";
     messages_create := fun _ _ => text_reply "Hello!" |}.

(** A reply that only asks for a tool: one block, without text. *)
Definition tool_use_reply : outcome anthropic.Message :=
  Return {| anthropic.content :=
              [{| anthropic.block_type := "tool_use"; anthropic.text := None |}] |}.

(** A runtime on which no directory can be made. *)
Definition read_only_disk : Runtime :=
  {| HAS_POML := false;
     nonzero := fun _ => true;
     recursion_room := 994;
     int_max_str_digits := 4300;
     Path_exists := fun _ => Return false;
     Path_mkdir :=
       fun _ => Raise (mkExn (OtherError "PermissionError")
                         "[Errno 13] Permission denied: 'templates'");
     PomlFile_from_file := fun p => Return {| poml.source := p |};
     PomlFile_render := fun _ _ => Return "";
     messages_create := fun _ _ => Return {| anthropic.content := [] |} |}.

(** A probe whose ping is answered, and one whose ping is refused. *)
Definition answered_probe : health.Probe :=
  {| health.runtime := replying (text_reply "Hello!");
     health.messages_create := fun _ _ => text_reply "pong" |}.

Definition refused_probe : health.Probe :=
  {| health.runtime := replying (text_reply "Hello!");
     health.messages_create :=
       fun _ _ => Raise (mkExn (OtherError "AuthenticationError")
                           "Error code: 401 - invalid x-api-key") |}.

(** An empty working directory, and one where [cache] is a file. *)
Definition empty_machine : quick_start.machine :=
  {| quick_start.files := []; quick_start.stdout := [] |}.

Definition cache_is_a_file : quick_start.machine :=
  {| quick_start.files := [("templates", quick_start.Dir);
                           ("cache", quick_start.File "old")];
     quick_start.stdout := [] |}.




Definition read_only_directory : quick_start.platform :=
  {| quick_start.refuses :=
       fun fs rq =>
         match rq with
         | quick_start.Mkdir d =>
             match quick_start.lookup fs d with
             | None =>
                 Some (quick_start.OSError "PermissionError" "13" "Permission denied" d)
             | Some _ => None
             end
         | quick_start.Open p =>
             Some (quick_start.OSError "PermissionError" "13" "Permission denied" p)
         | _ => None
         end;
     quick_start.written := fun _ _ => 0 |}.

(** A structured reply, a reply whose [primary_response] is null, and two
    failures of the remote call. *)
Definition structured_text : string :=
  "{" ++ dq "primary_response" ++ ":" ++ dq "ok" ++ ","
      ++ dq "confidence_score" ++ ":0.9}".

Definition null_text : string := "{" ++ dq "primary_response" ++ ": null}".

(** [n] opening brackets, then [n] closing ones. *)
Definition nested_text (n : nat) : string :=
  String.concat "" (repeat "[" n) ++ String.concat "" (repeat "]" n).

Definition auth_failure : exn :=
  mkExn (OtherError "AuthenticationError") "Error code: 401 - invalid x-api-key".

Definition silent_timeout : exn := mkExn (OtherError "TimeoutError") "".

(** What the greeting scenario is expected to give. *)
Definition hello_result : core_integration.IntegratedResponse.t :=
  {| core_integration.IntegratedResponse.success := true;
     core_integration.IntegratedResponse.response := PStr "Hello!";
     core_integration.IntegratedResponse.error := None;
     core_integration.IntegratedResponse.metadata :=
       Some [("processing_time", PFloat (FSub (FClock 1) (FClock 0)));
             ("model_used", PStr "claude-4")];
     core_integration.IntegratedResponse.confidence_score := PNone;
     core_integration.IntegratedResponse.reasoning_chain := PNone;
     core_integration.IntegratedResponse.localized_elements := PNone |}.

(** A request of the legacy caller, with overrides the adapter never reads. *)
Definition sample_request : core_integration.OrchestrationRequest.t :=
  {| core_integration.OrchestrationRequest.prompt := "Say hello";
     core_integration.OrchestrationRequest.context := None;
     core_integration.OrchestrationRequest.tools := Some ["validation"];
     core_integration.OrchestrationRequest.max_tokens := Some 16%Z;
     core_integration.OrchestrationRequest.temperature := Some (FLit "0.0");
     core_integration.OrchestrationRequest.template_name := None;
     core_integration.OrchestrationRequest.variables := None |}.

(** A request whose variables already use a reserved key. *)
Definition crowded_request : core_integration.OrchestrationRequest.t :=
  {| core_integration.OrchestrationRequest.prompt := "Document this";
     core_integration.OrchestrationRequest.context := None;
     core_integration.OrchestrationRequest.tools := Some ["validation"];
     core_integration.OrchestrationRequest.max_tokens := None;
     core_integration.OrchestrationRequest.temperature := None;
     core_integration.OrchestrationRequest.template_name := None;
     core_integration.OrchestrationRequest.variables :=
       Some [("tools", PStr "mine"); ("style", PStr "google")] |}.

(** A request that names the template of the [templating] runtime. *)
Definition greeting_request : core_integration.OrchestrationRequest.t :=
  {| core_integration.OrchestrationRequest.prompt := "Say hello";
     core_integration.OrchestrationRequest.context := Some [("user", PStr "Ada")];
     core_integration.OrchestrationRequest.tools := None;
     core_integration.OrchestrationRequest.max_tokens := None;
     core_integration.OrchestrationRequest.temperature := None;
     core_integration.OrchestrationRequest.template_name := Some "greeting";
     core_integration.OrchestrationRequest.variables := None |}.

Definition sample_app : service.app :=
  {| service.cfg := sample_config; service.ai := sample_self |}.

Definition sample_payload : service.GeneratePayload :=
  {| service.prompt := "Say hello";
     service.template_name := None;
     service.variables := None |}.

(** A process environment without any of the settings. *)
Definition bare_environ : string -> option string := fun _ => None.

Definition hello_world : world :=
  {| ticks := 2;
     trace := [MessagesCreate (anthropic.AsyncAnthropic "sk-test")
                 {| anthropic.model := "claude-4";
                    anthropic.max_tokens := 100000;
                    anthropic.temperature := FLit "0.7";
                    anthropic.messages := [("user", "Say hello")] |}] |}.

(** * Properties *)

Import core_integration.

(** ** The decoder's loops

    The array and object readers loop once per element; every element takes
    at least one character, so the bound they are started with, the length
    of the input plus one, is never used up. *)

Lemma skip_ws_length s : length (json.skip_ws s) <= length s.
Proof.
  induction s as [|c r IH]; simpl; [lia|].
  destruct (json.is_ws c); simpl; lia.
Qed.

Lemma span_digits_length s : length (snd (json.span_digits s)) <= length s.
Proof.
  induction s as [|c r IH]; simpl; [lia|].
  destruct (json.is_digit c); [|simpl; lia].
  destruct (json.span_digits r); simpl in *; lia.
Qed.

Lemma skipn_length_le {A : Type} n (l : list A) : length (skipn n l) <= length l.
Proof. rewrite length_skipn. lia. Qed.

Lemma scanstring_shrinks n :
  forall s begin acc str r,
    length s <= n ->
    json.scanstring begin s acc = inr (str, r) ->
    length r < length s.
Proof.
  induction n as [|n IH]; intros s begin acc str r Hn H;
    destruct s as [|c r0]; simpl in H; try discriminate; simpl in Hn; [lia|].
  repeat
    match type of H with
    | inr _ = inr _ => injection H as <- <-; simpl; lia
    | inl _ = inr _ => discriminate H
    | json.scanstring _ ?s' _ = inr _ =>
        apply IH in H; [simpl in *; lia | simpl in *; lia]
    | context [if ?b then _ else _] => destruct b
    | context [match ?l with [] => _ | _ :: _ => _ end] => destruct l
    | context [match ?o with Some _ => _ | None => _ end] => destruct o
    end.
Qed.

Lemma scanstring_bounded n :
  forall s begin acc,
    length s <= n -> json.scanstring begin s acc <> inl json.LoopBound.
Proof.
  induction n as [|n IH]; intros s begin acc Hn H;
    destruct s as [|c r0]; simpl in H; try discriminate; simpl in Hn; [lia|].
  repeat
    match type of H with
    | inl (json.ErrMsg _ _) = inl json.LoopBound => discriminate H
    | inr _ = inl _ => discriminate H
    | json.scanstring _ ?s' _ = inl _ =>
        apply IH in H; [exact H | simpl in *; lia]
    | context [if ?b then _ else _] => destruct b
    | context [match ?l with [] => _ | _ :: _ => _ end] => destruct l
    | context [match ?o with Some _ => _ | None => _ end] => destruct o
    end.
Qed.

Lemma match_number_bounded max_digits s :
  json.match_number max_digits s <> inl json.LoopBound.
Proof.
  unfold json.match_number. intros H.
  repeat
    match type of H with
    | inl (json.StopIteration _) = inl json.LoopBound => discriminate H
    | inl (json.IntDigitsErr _) = inl json.LoopBound => discriminate H
    | inr _ = inl _ => discriminate H
    | context [let (_, _) := ?p in _] => destruct p
    | context [match ?l with [] => _ | _ :: _ => _ end] => destruct l
    | context [match ?o with Some _ => _ | None => _ end] => destruct o
    | context [if ?b then _ else _] => destruct b
    end.
Qed.

Lemma match_number_shrinks max_digits s v r :
  json.match_number max_digits s = inr (v, r) -> length r < length s.
Proof.
  unfold json.match_number. intros H.
  assert (Hneg : forall b s1,
            (match s with
             | c :: r0 => if Ascii.eqb c "-" then (true, r0) else (false, s)
             | [] => (false, s)
             end) = (b, s1) -> length s1 <= length s).
  { intros b s1 E. destruct s as [|c r0]; [injection E as <- <-; lia|].
    destruct (Ascii.eqb c "-"); injection E as <- <-; simpl; lia. }
  destruct (match s with
            | c :: r0 => if Ascii.eqb c "-" then (true, r0) else (false, s)
            | [] => (false, s)
            end) as [neg s1] eqn:E.
  specialize (Hneg _ _ eq_refl).
  destruct s1 as [|c r0]; [discriminate|].
  assert (Hint : forall ids r1,
            (if Ascii.eqb c "0" then Some ([c], r0)
             else if json.is_digit c
                  then let (ds, r') := json.span_digits r0 in Some (c :: ds, r')
                  else None) = Some (ids, r1) -> length r1 <= length r0).
  { intros ids r1 E1. destruct (Ascii.eqb c "0"); [injection E1 as <- <-; lia|].
    destruct (json.is_digit c); [|discriminate].
    pose proof (span_digits_length r0) as Hs.
    destruct (json.span_digits r0); injection E1 as <- <-. exact Hs. }
  destruct (if Ascii.eqb c "0" then Some ([c], r0)
            else if json.is_digit c
                 then let (ds, r') := json.span_digits r0 in Some (c :: ds, r')
                 else None) as [[ids r1]|] eqn:E1; [|discriminate].
  specialize (Hint _ _ eq_refl).
  match type of H with
  | (let '(frac, r2) := ?f in _) = _ =>
      assert (Hfrac : length (snd f) <= length r1);
      [|destruct f as [frac r2] eqn:E2]
  end.
  { destruct r1 as [|p [|d r']]; simpl; try lia.
    destruct (Ascii.eqb p "." && json.is_digit d); simpl; [|lia].
    pose proof (span_digits_length r') as Hs.
    destruct (json.span_digits r'); simpl in *; lia. }
  simpl in Hfrac.
  match type of H with
  | (let '(exp, r3) := ?f in _) = _ =>
      assert (Hexp : length (snd f) <= length r2);
      [|destruct f as [exp r3] eqn:E3]
  end.
  { destruct r2 as [|e r']; simpl; [lia|].
    destruct (Ascii.eqb e "e" || Ascii.eqb e "E"); simpl; [|lia].
    assert (Hsign : forall sign r'',
              (match r' with
               | sg :: t => if Ascii.eqb sg "-" || Ascii.eqb sg "+"
                            then ([sg], t) else ([], r')
               | [] => ([], r')
               end) = (sign, r'') -> length r'' <= length r').
    { intros sign r'' E4. destruct r' as [|sg t]; [injection E4 as <- <-; lia|].
      destruct (Ascii.eqb sg "-" || Ascii.eqb sg "+"); injection E4 as <- <-; simpl; lia. }
    destruct (match r' with
              | sg :: t => if Ascii.eqb sg "-" || Ascii.eqb sg "+"
                           then ([sg], t) else ([], r')
              | [] => ([], r')
              end) as [sign r''] eqn:E4.
    specialize (Hsign _ _ eq_refl).
    pose proof (span_digits_length r'') as Hs.
    destruct (json.span_digits r'') as [ds r''']; simpl in Hs.
    destruct ds; simpl; lia. }
  simpl in Hexp, Hneg.
  destruct frac, exp;
    repeat match type of H with
           | inr _ = inr _ => injection H as <- <-; lia
           | inl _ = inr _ => discriminate H
           | context [if ?b then _ else _] => destruct b
           end.
Qed.

Section LoopBounds.
Variable scan : list ascii -> json.presult (pyval * list ascii).
Hypothesis scan_shrinks : forall s v r, scan s = inr (v, r) -> length r < length s.
Hypothesis scan_bounded : forall s, scan s <> inl json.LoopBound.

Lemma array_loop_shrinks bound :
  forall s values v r,
    json.array_loop scan bound s values = inr (v, r) -> length r < length s.
Proof.
  induction bound as [|bound IH]; intros s values v r H; simpl in H; [discriminate|].
  destruct (scan s) as [e|[v0 r0]] eqn:Hs; [discriminate|].
  apply scan_shrinks in Hs.
  pose proof (skip_ws_length r0) as Hw.
  destruct (json.skip_ws r0) as [|c r2]; [discriminate|]. simpl in Hw.
  destruct (Ascii.eqb c "]"); [injection H as <- <-; lia|].
  destruct (Ascii.eqb c ","); [|discriminate].
  apply IH in H. pose proof (skip_ws_length r2). lia.
Qed.

Lemma array_loop_bounded bound :
  forall s values,
    length s < bound -> json.array_loop scan bound s values <> inl json.LoopBound.
Proof.
  induction bound as [|bound IH]; intros s values Hb; [lia|]. simpl.
  destruct (scan s) as [e|[v0 r0]] eqn:Hs.
  - intros E. injection E as ->. exact (scan_bounded _ Hs).
  - apply scan_shrinks in Hs.
    pose proof (skip_ws_length r0) as Hw.
    destruct (json.skip_ws r0) as [|c r2]; [discriminate|]. simpl in Hw.
    destruct (Ascii.eqb c "]"); [discriminate|].
    destruct (Ascii.eqb c ","); [|discriminate].
    apply IH. pose proof (skip_ws_length r2). lia.
Qed.

Lemma parse_array_shrinks s v r :
  json.parse_array scan s = inr (v, r) -> length r <= length s.
Proof.
  unfold json.parse_array. intros H.
  pose proof (skip_ws_length s) as Hw.
  destruct (json.skip_ws s) as [|c r0] eqn:E.
  - apply array_loop_shrinks in H. simpl in H. lia.
  - destruct (Ascii.eqb c "]").
    + injection H as <- <-. simpl in Hw. lia.
    + apply array_loop_shrinks in H. lia.
Qed.

Lemma parse_array_bounded s : json.parse_array scan s <> inl json.LoopBound.
Proof.
  unfold json.parse_array.
  destruct (json.skip_ws s) as [|c r0].
  - apply array_loop_bounded. simpl. lia.
  - destruct (Ascii.eqb c "]"); [discriminate|].
    apply array_loop_bounded. lia.
Qed.

Lemma object_loop_shrinks bound :
  forall s pairs v r,
    json.object_loop scan bound s pairs = inr (v, r) -> length r < length s.
Proof.
  induction bound as [|bound IH]; intros s pairs v r H; simpl in H; [discriminate|].
  destruct s as [|q r0]; [discriminate|].
  destruct (Ascii.eqb q json.dquote); [|discriminate].
  destruct (json.scanstring (length (q :: r0)) r0 "") as [e|[key r1]] eqn:Hk; [discriminate|].
  apply (scanstring_shrinks (length r0)) in Hk; [|lia].
  pose proof (skip_ws_length r1) as Hw1.
  destruct (json.skip_ws r1) as [|c r3]; [discriminate|]. simpl in Hw1.
  destruct (Ascii.eqb c ":"); [|discriminate].
  destruct (scan (json.skip_ws r3)) as [e|[v0 r5]] eqn:Hs; [discriminate|].
  apply scan_shrinks in Hs.
  pose proof (skip_ws_length r3) as Hw3.
  pose proof (skip_ws_length r5) as Hw5.
  destruct (json.skip_ws r5) as [|c' r7]; [discriminate|]. simpl in Hw5.
  destruct (Ascii.eqb c' "}"); [injection H as <- <-; simpl; lia|].
  destruct (Ascii.eqb c' ","); [|discriminate].
  apply IH in H. pose proof (skip_ws_length r7). simpl. lia.
Qed.

Lemma object_loop_bounded bound :
  forall s pairs,
    length s < bound -> json.object_loop scan bound s pairs <> inl json.LoopBound.
Proof.
  induction bound as [|bound IH]; intros s pairs Hb; [lia|]. simpl.
  destruct s as [|q r0]; [discriminate|].
  destruct (Ascii.eqb q json.dquote); [|discriminate].
  destruct (json.scanstring (length (q :: r0)) r0 "") as [e|[key r1]] eqn:Hk.
  - intros E. injection E as ->.
    exact (scanstring_bounded (length r0) r0 _ _ (le_n _) Hk).
  - apply (scanstring_shrinks (length r0)) in Hk; [|lia].
    pose proof (skip_ws_length r1) as Hw1.
    destruct (json.skip_ws r1) as [|c r3]; [discriminate|]. simpl in Hw1.
    destruct (Ascii.eqb c ":"); [|discriminate].
    destruct (scan (json.skip_ws r3)) as [e|[v0 r5]] eqn:Hs.
    + intros E. injection E as ->. exact (scan_bounded _ Hs).
    + apply scan_shrinks in Hs.
      pose proof (skip_ws_length r3) as Hw3.
      pose proof (skip_ws_length r5) as Hw5.
      destruct (json.skip_ws r5) as [|c' r7]; [discriminate|]. simpl in Hw5.
      destruct (Ascii.eqb c' "}"); [discriminate|].
      destruct (Ascii.eqb c' ","); [|discriminate].
      apply IH. pose proof (skip_ws_length r7). simpl in Hb. lia.
Qed.

Lemma parse_object_shrinks s v r :
  json.parse_object scan s = inr (v, r) -> length r <= length s.
Proof.
  unfold json.parse_object. intros H.
  pose proof (skip_ws_length s) as Hw.
  destruct (json.skip_ws s) as [|c r0] eqn:E.
  - apply object_loop_shrinks in H. simpl in H. lia.
  - destruct (Ascii.eqb c "}").
    + injection H as <- <-. simpl in Hw. lia.
    + apply object_loop_shrinks in H. lia.
Qed.

Lemma parse_object_bounded s : json.parse_object scan s <> inl json.LoopBound.
Proof.
  unfold json.parse_object.
  destruct (json.skip_ws s) as [|c r0].
  - apply object_loop_bounded. simpl. lia.
  - destruct (Ascii.eqb c "}"); [discriminate|].
    apply object_loop_bounded. lia.
Qed.
End LoopBounds.

Lemma inr_rest {E A B : Type} (a a' : A) (l l' : B) :
  @inr E (A * B) (a, l) = inr (a', l') -> l = l'.
Proof. congruence. Qed.

Lemma scan_once_shrinks max_digits depth :
  forall s v r, json.scan_once max_digits depth s = inr (v, r) -> length r < length s.
Proof.
  induction depth as [|d IH]; intros s v r H;
    destruct s as [|c r0];
    cbn -[skipn json.starts_with json.match_number json.scanstring
          json.parse_object json.parse_array length] in H;
    try discriminate.
  all: repeat
    match type of H with
    | inr _ = inr _ =>
        apply inr_rest in H; subst r;
        try (pose proof (skipn_length_le 2 r0));
        try (pose proof (skipn_length_le 3 r0));
        try (pose proof (skipn_length_le 4 r0));
        try (pose proof (skipn_length_le 7 r0));
        try (pose proof (skipn_length_le 8 r0));
        change (length (c :: r0)) with (S (length r0)); lia
    | inl _ = inr _ => discriminate H
    | json.match_number _ _ = inr _ => apply match_number_shrinks in H; exact H
    | json.parse_object _ _ = inr _ =>
        apply (parse_object_shrinks _ IH) in H;
        change (length (c :: r0)) with (S (length r0)); lia
    | json.parse_array _ _ = inr _ =>
        apply (parse_array_shrinks _ IH) in H;
        change (length (c :: r0)) with (S (length r0)); lia
    | context [match json.scanstring ?b ?s' ?a with inl _ => _ | inr _ => _ end] =>
        let Hk := fresh "Hk" in
        destruct (json.scanstring b s' a) as [?|[? ?]] eqn:Hk;
        [|apply (scanstring_shrinks (length s')) in Hk; [|lia]]
    | context [if ?b then _ else _] => destruct b
    end.
Qed.

(** The bound of the loops is never reached. *)
Lemma scan_once_bounded max_digits depth :
  forall s, json.scan_once max_digits depth s <> inl json.LoopBound.
Proof.
  induction depth as [|d IH]; intros s H;
    destruct s as [|c r0];
    cbn -[skipn json.starts_with json.match_number json.scanstring
          json.parse_object json.parse_array length] in H;
    try discriminate.
  all: repeat
    match type of H with
    | inr _ = inl _ => discriminate H
    | inl (json.RecursionErr _) = inl json.LoopBound => discriminate H
    | inl ?e = inl json.LoopBound =>
        injection H as ->
    | json.match_number _ _ = inl _ => exact (match_number_bounded _ _ H)
    | json.parse_object _ _ = inl _ =>
        exact (parse_object_bounded _ (scan_once_shrinks max_digits d) IH _ H)
    | json.parse_array _ _ = inl _ =>
        exact (parse_array_bounded _ (scan_once_shrinks max_digits d) IH _ H)
    | context [match json.scanstring ?b ?s' ?a with inl _ => _ | inr _ => _ end] =>
        let Hk := fresh "Hk" in
        destruct (json.scanstring b s' a) as [?|[? ?]] eqn:Hk;
        [injection H as ->; exact (scanstring_bounded (length s') s' _ _ (le_n _) Hk)|]
    | context [if ?b then _ else _] => destruct b
    end.
Qed.

(** So [json.loads] raises only what the standard decoder raises:
    [JSONDecodeError], [RecursionError] past the recursion limit, or
    [ValueError] for an integer with too many digits. *)
Lemma loads_raises max_digits depth s e :
  json.loads max_digits depth s = Raise e ->
  exn_cls e = JSONDecodeError \/
  (exn_cls e = RecursionError /\
   exists what,
     exn_str e = "maximum recursion depth exceeded while decoding a JSON "
                   ++ what ++ " from a unicode string") \/
  exn_cls e = ValueError.
Proof.
  unfold json.loads. intros H.
  destruct (String.prefix json.bom s); [injection H as <-; left; reflexivity|].
  destruct (json.scan_once max_digits depth _) as [err|[v r]] eqn:Hs.
  - destruct err as [k|msg k|what|n|]; injection H as <-.
    + left. reflexivity.
    + left. reflexivity.
    + right. left. split; [reflexivity | exists what; reflexivity].
    + right. right. reflexivity.
    + exfalso. exact (scan_once_bounded _ _ _ Hs).
  - destruct (json.skip_ws r); [discriminate|]. injection H as <-. left. reflexivity.
Qed.

(** The decoder on a few documents: scalars, an object with a repeated key,
    escapes, and the messages of its errors. *)
Example loads_scalars :
  json.loads 4300 994 "42" = Return (PInt 42) /\
  json.loads 4300 994 " -0 " = Return (PInt 0) /\
  json.loads 4300 994 "1.5e+3" = Return (PFloat (FLit "1.5e+3")) /\
  json.loads 4300 994 "null" = Return PNone /\
  json.loads 4300 994 "-Infinity" = Return (PFloat FNegInf) /\
  json.loads 4300 994 (dq "hi\n") = Return (PStr (String "h" (String "i" (String "010" "")))).
Proof. repeat split; vm_compute; reflexivity. Qed.

Example loads_containers :
  json.loads 4300 994 ("{" ++ dq "a" ++ ":1, " ++ dq "b" ++ ":[true, {}], " ++ dq "a" ++ ":2}")
  = Return (PDict [("a", PInt 2); ("b", PList [PBool true; PDict []])]).
Proof. vm_compute. reflexivity. Qed.

Example loads_errors :
  json.loads 4300 994 ""
    = Raise (mkExn JSONDecodeError "Expecting value: line 1 column 1 (char 0)") /\
  json.loads 4300 994 "Hello!"
    = Raise (mkExn JSONDecodeError "Expecting value: line 1 column 1 (char 0)") /\
  json.loads 4300 994 "[0]x"
    = Raise (mkExn JSONDecodeError "Extra data: line 1 column 4 (char 3)") /\
  json.loads 4300 994 ("{" ++ dq "a" ++ ":1,}")
    = Raise (mkExn JSONDecodeError
               "Expecting property name enclosed in double quotes: line 1 column 8 (char 7)") /\
  json.loads 4300 994 "[1 2]"
    = Raise (mkExn JSONDecodeError "Expecting ',' delimiter: line 1 column 4 (char 3)").
Proof. repeat split; vm_compute; reflexivity. Qed.

(** ** The template resolver *)

(** Rendering reads the file system and the engine but leaves the world as it
    found it. *)
Lemma _render_world rt self prompt tn vars w :
  snd (_render rt self prompt tn vars w) = w.
Proof.
  unfold _render.
  destruct tn as [name|]; [|reflexivity].
  destruct (negb (String.eqb name "") && HAS_POML rt); [|reflexivity].
  unfold bind, lift, ret.
  destruct (Path_exists rt _) as [[|]|e]; try reflexivity.
  destruct (PomlFile_from_file rt _) as [pf|e]; reflexivity.
Qed.

Lemma _render_outcome rt self prompt tn vars w :
  exists o, _render rt self prompt tn vars w = (o, w).
Proof.
  exists (fst (_render rt self prompt tn vars w)).
  rewrite <- (_render_world rt self prompt tn vars w) at 3.
  destruct (_render rt self prompt tn vars w); reflexivity.
Qed.

(** An empty template name is treated like an absent one. *)
Lemma _render_empty_name rt self prompt vars w :
  _render rt self prompt (Some "") vars w = (Return prompt, w).
Proof. reflexivity. Qed.

(** ** The paths through [generate] *)

Section GeneratePaths.
Variable rt : Runtime.
Variable self : POMLClaudeToolTrainIntegration.
Variables (prompt : string) (tn : option string) (vars : option dict).
Variable w : world.

(** The resolver raises. *)
Lemma generate_render_raises e :
  _render rt self prompt tn (Some (or_empty vars)) (tick w) = (Raise e, tick w) ->
  generate rt self prompt tn vars w =
    (Return
       {| IntegratedResponse.success := false;
          IntegratedResponse.response := PNone;
          IntegratedResponse.error := Some (exn_str e);
          IntegratedResponse.metadata :=
            Some [("processing_time",
                   PFloat (FSub (FClock (S (ticks w))) (FClock (ticks w))))];
          IntegratedResponse.confidence_score := PNone;
          IntegratedResponse.reasoning_chain := PNone;
          IntegratedResponse.localized_elements := PNone |},
     tick (tick w)).
Proof.
  intros Hr. unfold generate, bind, try_except, perf_counter.
  rewrite Hr. reflexivity.
Qed.

Section Rendered.
Variable rendered : string.
Hypothesis Hrender :
  _render rt self prompt tn (Some (or_empty vars)) (tick w) = (Return rendered, tick w).

(** The remote call raises. *)
Lemma generate_create_raises e :
  messages_create rt (claude self) (create_call self rendered) = Raise e ->
  generate rt self prompt tn vars w =
    (Return
       {| IntegratedResponse.success := false;
          IntegratedResponse.response := PNone;
          IntegratedResponse.error := Some (exn_str e);
          IntegratedResponse.metadata :=
            Some [("processing_time",
                   PFloat (FSub (FClock (S (ticks w))) (FClock (ticks w))))];
          IntegratedResponse.confidence_score := PNone;
          IntegratedResponse.reasoning_chain := PNone;
          IntegratedResponse.localized_elements := PNone |},
     tick (logged (MessagesCreate (claude self) (create_call self rendered)) (tick w))).
Proof.
  intros Hc. unfold generate, bind, try_except, perf_counter, emit, lift.
  rewrite Hrender. rewrite Hc. reflexivity.
Qed.

Section Replied.
Variable rsp : anthropic.Message.
Hypothesis Hcreate :
  messages_create rt (claude self) (create_call self rendered) = Return rsp.

(** The decoder raises [JSONDecodeError]: the inner handler. *)
Lemma generate_decode_error e :
  json.loads (int_max_str_digits rt) (recursion_room rt)
    (join_text (anthropic.content rsp)) = Raise e ->
  is_JSONDecodeError e = true ->
  generate rt self prompt tn vars w =
    (Return
       {| IntegratedResponse.success := true;
          IntegratedResponse.response := PStr (join_text (anthropic.content rsp));
          IntegratedResponse.error := None;
          IntegratedResponse.metadata :=
            Some [("processing_time",
                 PFloat (FSub (FClock (S (ticks w))) (FClock (ticks w))));
                ("model_used", PStr (config.claude_model (config self)))];
          IntegratedResponse.confidence_score := PNone;
          IntegratedResponse.reasoning_chain := PNone;
          IntegratedResponse.localized_elements := PNone |},
     tick (logged (MessagesCreate (claude self) (create_call self rendered)) (tick w))).
Proof.
  intros Hp He.
  unfold generate, bind, try_except, perf_counter, emit, lift, json_loads.
  rewrite Hrender. rewrite Hcreate. unfold lift. rewrite Hp. rewrite He.
  reflexivity.
Qed.

(** The decoder raises something else: the outer handler. *)
Lemma generate_decode_other_error e :
  json.loads (int_max_str_digits rt) (recursion_room rt)
    (join_text (anthropic.content rsp)) = Raise e ->
  is_JSONDecodeError e = false ->
  generate rt self prompt tn vars w =
    (Return
       {| IntegratedResponse.success := false;
          IntegratedResponse.response := PNone;
          IntegratedResponse.error := Some (exn_str e);
          IntegratedResponse.metadata :=
            Some [("processing_time",
                   PFloat (FSub (FClock (S (ticks w))) (FClock (ticks w))))];
          IntegratedResponse.confidence_score := PNone;
          IntegratedResponse.reasoning_chain := PNone;
          IntegratedResponse.localized_elements := PNone |},
     tick (logged (MessagesCreate (claude self) (create_call self rendered)) (tick w))).
Proof.
  intros Hp He.
  unfold generate, bind, try_except, perf_counter, emit, lift, json_loads.
  rewrite Hrender. rewrite Hcreate. unfold lift. rewrite Hp. rewrite He.
  reflexivity.
Qed.

(** The decoder returns a dict. *)
Lemma generate_object d :
  json.loads (int_max_str_digits rt) (recursion_room rt)
    (join_text (anthropic.content rsp)) = Return (PDict d) ->
  generate rt self prompt tn vars w =
    (Return
       {| IntegratedResponse.success := true;
          IntegratedResponse.response :=
            dict_get d "primary_response" (PStr (join_text (anthropic.content rsp)));
          IntegratedResponse.error := None;
          IntegratedResponse.metadata :=
            Some [("processing_time",
                 PFloat (FSub (FClock (S (ticks w))) (FClock (ticks w))));
                ("model_used", PStr (config.claude_model (config self)))];
          IntegratedResponse.confidence_score := dict_get d "confidence_score" PNone;
          IntegratedResponse.reasoning_chain := dict_get d "reasoning_chain" (PList []);
          IntegratedResponse.localized_elements :=
            dict_get d "localized_elements" (PList []) |},
     tick (logged (MessagesCreate (claude self) (create_call self rendered)) (tick w))).
Proof.
  intros Hp.
  unfold generate, bind, try_except, perf_counter, emit, lift, json_loads.
  rewrite Hrender. rewrite Hcreate. unfold lift. rewrite Hp.
  reflexivity.
Qed.

(** The decoder returns something that is no dict: [obj.get] raises. *)
Lemma generate_not_an_object v :
  json.loads (int_max_str_digits rt) (recursion_room rt)
    (join_text (anthropic.content rsp)) = Return v ->
  (forall d, v <> PDict d) ->
  generate rt self prompt tn vars w =
    (Return
       {| IntegratedResponse.success := false;
          IntegratedResponse.response := PNone;
          IntegratedResponse.error :=
            Some ("'" ++ type_name v ++ "' object has no attribute 'get'");
          IntegratedResponse.metadata :=
            Some [("processing_time",
                   PFloat (FSub (FClock (S (ticks w))) (FClock (ticks w))))];
          IntegratedResponse.confidence_score := PNone;
          IntegratedResponse.reasoning_chain := PNone;
          IntegratedResponse.localized_elements := PNone |},
     tick (logged (MessagesCreate (claude self) (create_call self rendered)) (tick w))).
Proof.
  intros Hp Hv.
  unfold generate, bind, try_except, perf_counter, emit, lift, json_loads.
  rewrite Hrender. rewrite Hcreate. unfold lift. rewrite Hp.
  destruct v; try reflexivity.
  exfalso. eapply Hv. reflexivity.
Qed.
End Replied.
End Rendered.
End GeneratePaths.


(** Every call of [generate] ends in one of these ways. *)
Lemma generate_cases rt self prompt tn vars w :
  exists r w',
    generate rt self prompt tn vars w = (Return r, w') /\
    ((IntegratedResponse.success r = false /\
      IntegratedResponse.response r = PNone /\
      (exists e, IntegratedResponse.error r = Some (exn_str e)) /\
      IntegratedResponse.metadata r =
        Some [("processing_time",
               PFloat (FSub (FClock (S (ticks w))) (FClock (ticks w))))] /\
      IntegratedResponse.confidence_score r = PNone /\
      IntegratedResponse.reasoning_chain r = PNone)
     \/
     (IntegratedResponse.success r = true /\
      IntegratedResponse.error r = None /\
      exists rendered rsp,
        _render rt self prompt tn (Some (or_empty vars)) (tick w)
          = (Return rendered, tick w) /\
        messages_create rt (claude self) (create_call self rendered) = Return rsp /\
        (IntegratedResponse.response r = PStr (join_text (anthropic.content rsp)) \/
         exists d,
           json.loads (int_max_str_digits rt) (recursion_room rt)
             (join_text (anthropic.content rsp)) = Return (PDict d) /\
           IntegratedResponse.response r =
             dict_get d "primary_response" (PStr (join_text (anthropic.content rsp))))))
    /\
    (w' = tick (tick w) \/
     exists rendered,
       w' = tick (logged (MessagesCreate (claude self) (create_call self rendered))
                    (tick w))).
Proof.
  destruct (_render_outcome rt self prompt tn (Some (or_empty vars)) (tick w))
    as [[rendered|e] Hr].
  2:{ eexists; eexists; split; [apply (generate_render_raises _ _ _ _ _ _ e Hr)|].
      split; [left; simpl; repeat split; eauto | left; reflexivity]. }
  destruct (messages_create rt (claude self) (create_call self rendered))
    as [rsp|e] eqn:Hc.
  2:{ eexists; eexists; split;
        [apply (generate_create_raises _ _ _ _ _ _ _ Hr e Hc)|].
      split; [left; simpl; repeat split; eauto | right; eauto]. }
  destruct (json.loads (int_max_str_digits rt) (recursion_room rt)
              (join_text (anthropic.content rsp))) as [v|e] eqn:Hp.
  - assert (Hv : (exists d, v = PDict d) \/ (forall d, v <> PDict d)).
    { destruct v; try (right; intros d' Hd; discriminate Hd). left; eauto. }
    destruct Hv as [[d ->]|Hv].
    + eexists; eexists; split;
        [apply (generate_object _ _ _ _ _ _ _ Hr rsp Hc d Hp)|].
      split; [right | right; eauto].
      simpl. split; [reflexivity|]. split; [reflexivity|].
      exists rendered, rsp. split; [exact Hr|]. split; [exact Hc|].
      right. exists d. split; [exact Hp | reflexivity].
    + eexists; eexists; split;
        [apply (generate_not_an_object _ _ _ _ _ _ _ Hr rsp Hc v Hp Hv)|].
      split; [left | right; eauto].
      split; [reflexivity|]. split; [reflexivity|].
      split; [eexists (mkExn AttributeError _); reflexivity|].
      repeat split.
  - destruct (is_JSONDecodeError e) eqn:He.
    + eexists; eexists; split;
        [apply (generate_decode_error _ _ _ _ _ _ _ Hr rsp Hc e Hp He)|].
      split; [right | right; eauto].
      simpl. split; [reflexivity|]. split; [reflexivity|].
      exists rendered, rsp. split; [exact Hr|]. split; [exact Hc|].
      left. reflexivity.
    + eexists; eexists; split;
        [apply (generate_decode_other_error _ _ _ _ _ _ _ Hr rsp Hc e Hp He)|].
      split; [left; simpl; repeat split; eauto | right; eauto].
Qed.

(** ** Response normalisation *)

(** C1.  When the text of the reply, joined over its blocks, parses as a JSON
    object, [generate] returns a successful result: its text is the object's
    [primary_response] when the object has one and the joined text
    otherwise; the confidence score, the reasoning steps and the localized
    elements are the object's fields of these names, and default to [None],
    the empty list and the empty list. *)
Theorem generate_structured_reply rt self prompt tn vars w rendered rsp d :
  _render rt self prompt tn (Some (or_empty vars)) (tick w) = (Return rendered, tick w) ->
  messages_create rt (claude self) (create_call self rendered) = Return rsp ->
  json.loads (int_max_str_digits rt) (recursion_room rt)
    (join_text (anthropic.content rsp)) = Return (PDict d) ->
  exists r w',
    generate rt self prompt tn vars w = (Return r, w') /\
    IntegratedResponse.success r = true /\
    IntegratedResponse.error r = None /\
    IntegratedResponse.response r =
      match dict_lookup d "primary_response" with
      | Some v => v
      | None => PStr (join_text (anthropic.content rsp))
      end /\
    IntegratedResponse.confidence_score r =
      match dict_lookup d "confidence_score" with Some v => v | None => PNone end /\
    IntegratedResponse.reasoning_chain r =
      match dict_lookup d "reasoning_chain" with Some v => v | None => PList [] end /\
    IntegratedResponse.localized_elements r =
      match dict_lookup d "localized_elements" with Some v => v | None => PList [] end.
Proof.
  intros Hr Hc Hp.
  eexists; eexists; split.
  - apply (generate_object rt self prompt tn vars w rendered Hr rsp Hc d Hp).
  - repeat split.
Qed.

Lemma generate_structured_reply_witness :
  exists r w',
    generate (replying (text_reply structured_text)) sample_self "Return JSON" None None start
      = (Return r, w') /\
    IntegratedResponse.success r = true /\
    IntegratedResponse.error r = None /\
    IntegratedResponse.response r = PStr "ok" /\
    IntegratedResponse.confidence_score r = PFloat (FLit "0.9") /\
    IntegratedResponse.reasoning_chain r = PList [] /\
    IntegratedResponse.localized_elements r = PList [].
Proof.
  apply (generate_structured_reply (replying (text_reply structured_text)) sample_self
           "Return JSON" None None start "Return JSON"
           {| anthropic.content :=
                [{| anthropic.block_type := "text";
                    anthropic.text := Some structured_text |}] |}
           [("primary_response", PStr "ok"); ("confidence_score", PFloat (FLit "0.9"))]).
  - reflexivity.
  - reflexivity.
  - vm_compute. reflexivity.
Defined.

(** The plain-text fallback as far as the code has it: a reply on which
    [json.loads] raises [JSONDecodeError] comes back as a successful result
    holding the joined text, with no score, steps or elements. *)
Lemma generate_plain_text_reply rt self prompt tn vars w rendered rsp e :
  _render rt self prompt tn (Some (or_empty vars)) (tick w) = (Return rendered, tick w) ->
  messages_create rt (claude self) (create_call self rendered) = Return rsp ->
  json.loads (int_max_str_digits rt) (recursion_room rt)
    (join_text (anthropic.content rsp)) = Raise e ->
  is_JSONDecodeError e = true ->
  exists r w',
    generate rt self prompt tn vars w = (Return r, w') /\
    IntegratedResponse.success r = true /\
    IntegratedResponse.error r = None /\
    IntegratedResponse.response r = PStr (join_text (anthropic.content rsp)) /\
    IntegratedResponse.confidence_score r = PNone /\
    IntegratedResponse.reasoning_chain r = PNone /\
    IntegratedResponse.localized_elements r = PNone.
Proof.
  intros Hr Hc Hp He.
  eexists; eexists; split.
  - apply (generate_decode_error rt self prompt tn vars w rendered Hr rsp Hc e Hp He).
  - repeat split.
Qed.

(** The scenario of the plain greeting. *)
Example generate_hello :
  generate (replying (text_reply "Hello!")) sample_self "Say hello" None None start
  = (Return hello_result, hello_world).
Proof. vm_compute. reflexivity. Qed.

(** A reply that is JSON but no object takes neither branch: [obj.get]
    raises [AttributeError], which the outer handler turns into a failure. *)
Lemma generate_json_scalar_reply rt self prompt tn vars w rendered rsp v :
  _render rt self prompt tn (Some (or_empty vars)) (tick w) = (Return rendered, tick w) ->
  messages_create rt (claude self) (create_call self rendered) = Return rsp ->
  json.loads (int_max_str_digits rt) (recursion_room rt)
    (join_text (anthropic.content rsp)) = Return v ->
  (forall d, v <> PDict d) ->
  exists r w',
    generate rt self prompt tn vars w = (Return r, w') /\
    IntegratedResponse.success r = false /\
    IntegratedResponse.response r = PNone /\
    IntegratedResponse.error r =
      Some ("'" ++ type_name v ++ "' object has no attribute 'get'").
Proof.
  intros Hr Hc Hp Hv.
  eexists; eexists; split.
  - apply (generate_not_an_object rt self prompt tn vars w rendered Hr rsp Hc v Hp Hv).
  - repeat split.
Qed.

(** C2, at the reply [42].  The text does not parse as a JSON object, and
    the specification asks for a successful result with the text [42] and no
    error; the code returns a failure whose error is the message of the
    [AttributeError]. *)
Theorem generate_number_reply_fails :
  json.loads 4300 994 "42" = Return (PInt 42) /\
  fst (generate (replying (text_reply "42")) sample_self "Pick a number" None None start)
  = Return
      {| IntegratedResponse.success := false;
         IntegratedResponse.response := PNone;
         IntegratedResponse.error := Some "'int' object has no attribute 'get'";
         IntegratedResponse.metadata :=
           Some [("processing_time", PFloat (FSub (FClock 1) (FClock 0)))];
         IntegratedResponse.confidence_score := PNone;
         IntegratedResponse.reasoning_chain := PNone;
         IntegratedResponse.localized_elements := PNone |}.
Proof. split; vm_compute; reflexivity. Qed.

(** The same happens when the decoder gives up for another reason than
    [JSONDecodeError]: arrays nested beyond the recursion limit. *)
Example generate_deeply_nested_reply :
  fst (generate (replying (text_reply (nested_text 995))) sample_self "Nest" None None start)
  = Return
      {| IntegratedResponse.success := false;
         IntegratedResponse.response := PNone;
         IntegratedResponse.error :=
           Some "maximum recursion depth exceeded while decoding a JSON array from a unicode string";
         IntegratedResponse.metadata :=
           Some [("processing_time", PFloat (FSub (FClock 1) (FClock 0)))];
         IntegratedResponse.confidence_score := PNone;
         IntegratedResponse.reasoning_chain := PNone;
         IntegratedResponse.localized_elements := PNone |}.
Proof. vm_compute. reflexivity. Qed.

(** ** Failures of the invocation *)

(** C3, as the code has it.  When the remote call raises [e], [generate]
    returns a failed result whose error is [str(e)], whose text is absent
    and whose metadata holds the elapsed time and nothing else. *)
Theorem generate_invocation_failure rt self prompt tn vars w rendered e :
  _render rt self prompt tn (Some (or_empty vars)) (tick w) = (Return rendered, tick w) ->
  messages_create rt (claude self) (create_call self rendered) = Raise e ->
  exists r w',
    generate rt self prompt tn vars w = (Return r, w') /\
    IntegratedResponse.success r = false /\
    IntegratedResponse.error r = Some (exn_str e) /\
    IntegratedResponse.response r = PNone /\
    IntegratedResponse.metadata r =
      Some [("processing_time",
             PFloat (FSub (FClock (S (ticks w))) (FClock (ticks w))))].
Proof.
  intros Hr Hc.
  eexists; eexists; split.
  - apply (generate_create_raises rt self prompt tn vars w rendered Hr e Hc).
  - repeat split.
Qed.

Lemma generate_invocation_failure_witness :
  exists r w',
    generate (replying (Raise auth_failure)) sample_self "Say hello" None None start
      = (Return r, w') /\
    IntegratedResponse.success r = false /\
    IntegratedResponse.error r = Some "Error code: 401 - invalid x-api-key" /\
    IntegratedResponse.response r = PNone /\
    IntegratedResponse.metadata r =
      Some [("processing_time", PFloat (FSub (FClock 1) (FClock 0)))].
Proof.
  apply (generate_invocation_failure (replying (Raise auth_failure)) sample_self
           "Say hello" None None start "Say hello" auth_failure).
  - reflexivity.
  - reflexivity.
Defined.

(** C3 with a non-empty description does not hold: when the remote call
    raises a [TimeoutError] that has no message, no failed result with a
    non-empty error comes back. *)
Lemma generate_failure_without_description :
  messages_create (replying (Raise silent_timeout)) (claude sample_self)
    (create_call sample_self "Say hello") = Raise silent_timeout /\
  ~ (exists r w',
       generate (replying (Raise silent_timeout)) sample_self "Say hello" None None start
         = (Return r, w') /\
       IntegratedResponse.success r = false /\
       exists msg, IntegratedResponse.error r = Some msg /\ msg <> "").
Proof.
  split; [reflexivity|].
  intros (r & w' & Hg & _ & msg & Hm & Hne).
  vm_compute in Hg. injection Hg as <- _.
  simpl in Hm. injection Hm as <-. apply Hne. reflexivity.
Qed.

(** ** Text and error *)

(** C4, as the code has it.  A failed result has its error and no text.  A
    successful result has no error, and has its text unless the reply parsed
    as a JSON object whose [primary_response] is null: the text is then
    [None] as well. *)
Theorem generate_text_or_error rt self prompt tn vars w r w' :
  generate rt self prompt tn vars w = (Return r, w') ->
  (IntegratedResponse.success r = false ->
     (exists msg, IntegratedResponse.error r = Some msg) /\
     IntegratedResponse.response r = PNone) /\
  (IntegratedResponse.success r = true ->
     IntegratedResponse.error r = None /\
     (IntegratedResponse.response r <> PNone \/
      exists rendered rsp d,
        _render rt self prompt tn (Some (or_empty vars)) (tick w)
          = (Return rendered, tick w) /\
        messages_create rt (claude self) (create_call self rendered) = Return rsp /\
        json.loads (int_max_str_digits rt) (recursion_room rt)
          (join_text (anthropic.content rsp)) = Return (PDict d) /\
        dict_lookup d "primary_response" = Some PNone)).
Proof.
  intros Hg.
  destruct (generate_cases rt self prompt tn vars w) as (r0 & w0 & Hg0 & Hcase & _).
  rewrite Hg in Hg0. injection Hg0 as <- <-.
  destruct Hcase as [(Hs & Hresp & (e & He) & _) | (Hs & Herr & rendered & rsp & Hr & Hc & Htext)].
  - split; intros H; [|congruence].
    split; [eauto | exact Hresp].
  - split; intros H; [congruence|].
    split; [exact Herr|].
    destruct Htext as [Htext | (d & Hp & Htext)].
    + left. rewrite Htext. discriminate.
    + unfold dict_get in Htext.
      destruct (dict_lookup d "primary_response") as [v|] eqn:Hl.
      * destruct v; try (left; rewrite Htext; discriminate).
        right. exists rendered, rsp, d. auto.
      * left. rewrite Htext. discriminate.
Qed.

Lemma generate_text_or_error_witness :
  generate (replying (text_reply "Hello!")) sample_self "Say hello" None None start
    = (Return hello_result, hello_world) /\
  IntegratedResponse.error hello_result = None /\
  (IntegratedResponse.response hello_result <> PNone \/
   exists rendered rsp d,
     _render (replying (text_reply "Hello!")) sample_self "Say hello" None
       (Some (or_empty None)) (tick start) = (Return rendered, tick start) /\
     messages_create (replying (text_reply "Hello!")) (claude sample_self)
       (create_call sample_self rendered) = Return rsp /\
     json.loads 4300 994 (join_text (anthropic.content rsp)) = Return (PDict d) /\
     dict_lookup d "primary_response" = Some PNone).
Proof.
  assert (H : generate (replying (text_reply "Hello!")) sample_self "Say hello" None None
                start = (Return hello_result, hello_world))
    by (vm_compute; reflexivity).
  split; [exact H|].
  apply (proj2 (generate_text_or_error (replying (text_reply "Hello!")) sample_self
                  "Say hello" None None start hello_result hello_world H)).
  reflexivity.
Defined.

(** C4 with exactly one field populated does not hold: on a structured
    reply whose [primary_response] is null the result is successful and
    neither its text nor its error is populated. *)
Lemma generate_null_primary_response :
  json.loads 4300 994 null_text = Return (PDict [("primary_response", PNone)]) /\
  ~ (forall r w',
       generate (replying (text_reply null_text)) sample_self "Say hello" None None start
         = (Return r, w') ->
       (IntegratedResponse.success r = true ->
          IntegratedResponse.response r <> PNone /\ IntegratedResponse.error r = None) /\
       (IntegratedResponse.success r = false ->
          IntegratedResponse.response r = PNone /\ IntegratedResponse.error r <> None)).
Proof.
  split; [vm_compute; reflexivity|].
  intros H.
  destruct (generate (replying (text_reply null_text)) sample_self "Say hello" None None
              start) as [o w'] eqn:Hg.
  vm_compute in Hg. injection Hg as <- <-.
  destruct (H _ _ eq_refl) as [Hs _].
  destruct (Hs eq_refl) as [Hresp _].
  apply Hresp. reflexivity.
Qed.

(** ** Template resolution *)

(** C5.  With no template name, or without the templating engine, or when
    the template file does not exist in the template directory, the resolver
    returns the prompt unchanged and raises nothing. *)
Theorem _render_fallback rt self prompt tn vars w :
  tn = None \/
  HAS_POML rt = false \/
  (exists name,
     tn = Some name /\
     Path_exists rt (PathDiv (Path_ (config.templates_dir (config self))) (name ++ ".poml"))
       = Return false) ->
  _render rt self prompt tn vars w = (Return prompt, w).
Proof.
  intros [-> | [Hp | (name & -> & Hex)]].
  - reflexivity.
  - unfold _render. destruct tn as [name|]; [|reflexivity].
    rewrite Hp, andb_false_r. reflexivity.
  - unfold _render.
    destruct (negb (String.eqb name "") && HAS_POML rt); [|reflexivity].
    unfold bind, lift. rewrite Hex. reflexivity.
Qed.

Lemma _render_fallback_witness :
  _render (templating (text_reply "Hello!")) sample_self "Say hello" None
    (Some [("user", PStr "Ada")]) start = (Return "Say hello", start) /\
  _render (replying (text_reply "Hello!")) sample_self "Say hello" (Some "greeting")
    (Some [("user", PStr "Ada")]) start = (Return "Say hello", start) /\
  _render (templating (text_reply "Hello!")) sample_self "Say hello" (Some "farewell")
    (Some [("user", PStr "Ada")]) start = (Return "Say hello", start).
Proof.
  split; [|split].
  - apply (_render_fallback (templating (text_reply "Hello!")) sample_self "Say hello"
             None (Some [("user", PStr "Ada")]) start).
    left. reflexivity.
  - apply (_render_fallback (replying (text_reply "Hello!")) sample_self "Say hello"
             (Some "greeting") (Some [("user", PStr "Ada")]) start).
    right. left. reflexivity.
  - apply (_render_fallback (templating (text_reply "Hello!")) sample_self "Say hello"
             (Some "farewell") (Some [("user", PStr "Ada")]) start).
    right. right. exists "farewell". split; reflexivity.
Defined.

(** With the engine and an existing template the resolver does render. *)
Example _render_greeting :
  _render (templating (text_reply "Hello!")) sample_self "Say hello" (Some "greeting")
    (Some [("user", PStr "Ada")]) start = (Return "Greet the user.", start).
Proof. reflexivity. Qed.

(** ** Totality *)

(** C6.  [generate] returns a result record whatever the collaborators do
    and never raises; a result that is not successful carries an error.
    When the invocation fails, the record returned is the failure record:
    if the resolver raises [e], if the remote call raises [e], or if the
    decoder raises an [e] that is no [JSONDecodeError], then [success] is
    false, [error] is [str(e)] and there is no text. *)
Theorem generate_always_returns rt self prompt tn vars w :
  exists r w',
    generate rt self prompt tn vars w = (Return r, w') /\
    (IntegratedResponse.success r = true \/
     IntegratedResponse.success r = false /\
     exists msg, IntegratedResponse.error r = Some msg) /\
    (forall e,
       _render rt self prompt tn (Some (or_empty vars)) (tick w) = (Raise e, tick w) ->
       IntegratedResponse.success r = false /\
       IntegratedResponse.error r = Some (exn_str e) /\
       IntegratedResponse.response r = PNone) /\
    (forall rendered e,
       _render rt self prompt tn (Some (or_empty vars)) (tick w)
         = (Return rendered, tick w) ->
       messages_create rt (claude self) (create_call self rendered) = Raise e ->
       IntegratedResponse.success r = false /\
       IntegratedResponse.error r = Some (exn_str e) /\
       IntegratedResponse.response r = PNone) /\
    (forall rendered rsp e,
       _render rt self prompt tn (Some (or_empty vars)) (tick w)
         = (Return rendered, tick w) ->
       messages_create rt (claude self) (create_call self rendered) = Return rsp ->
       json.loads (int_max_str_digits rt) (recursion_room rt)
         (join_text (anthropic.content rsp)) = Raise e ->
       is_JSONDecodeError e = false ->
       IntegratedResponse.success r = false /\
       IntegratedResponse.error r = Some (exn_str e) /\
       IntegratedResponse.response r = PNone).
Proof.
  destruct (_render_outcome rt self prompt tn (Some (or_empty vars)) (tick w))
    as [[rendered|e] Hr].
  2:{ eexists; eexists; split; [apply (generate_render_raises _ _ _ _ _ _ e Hr)|].
      split; [right; split; [reflexivity | eexists; reflexivity]|].
      split; [|split].
      - intros e' Hr'. rewrite Hr in Hr'. injection Hr' as <-. repeat split.
      - intros rendered' e' Hr'. rewrite Hr in Hr'. discriminate Hr'.
      - intros rendered' rsp' e' Hr'. rewrite Hr in Hr'. discriminate Hr'. }
  destruct (messages_create rt (claude self) (create_call self rendered))
    as [rsp|e] eqn:Hc.
  2:{ eexists; eexists; split;
        [apply (generate_create_raises _ _ _ _ _ _ _ Hr e Hc)|].
      split; [right; split; [reflexivity | eexists; reflexivity]|].
      split; [|split].
      - intros e' Hr'. rewrite Hr in Hr'. discriminate Hr'.
      - intros rendered' e' Hr' Hc'. rewrite Hr in Hr'. injection Hr' as <-.
        rewrite Hc in Hc'. injection Hc' as <-. repeat split.
      - intros rendered' rsp' e' Hr' Hc'. rewrite Hr in Hr'. injection Hr' as <-.
        rewrite Hc in Hc'. discriminate Hc'. }
  assert (Hno_render : forall e',
            _render rt self prompt tn (Some (or_empty vars)) (tick w)
              <> (Raise e', tick w)).
  { intros e' Hr'. rewrite Hr in Hr'. discriminate Hr'. }
  assert (Hno_create : forall rendered' e',
            _render rt self prompt tn (Some (or_empty vars)) (tick w)
              = (Return rendered', tick w) ->
            messages_create rt (claude self) (create_call self rendered') <> Raise e').
  { intros rendered' e' Hr' Hc'. rewrite Hr in Hr'. injection Hr' as <-.
    rewrite Hc in Hc'. discriminate Hc'. }
  destruct (json.loads (int_max_str_digits rt) (recursion_room rt)
              (join_text (anthropic.content rsp))) as [v|e] eqn:Hp.
  - assert (Hno_decode : forall rendered' rsp' e',
              _render rt self prompt tn (Some (or_empty vars)) (tick w)
                = (Return rendered', tick w) ->
              messages_create rt (claude self) (create_call self rendered')
                = Return rsp' ->
              json.loads (int_max_str_digits rt) (recursion_room rt)
                (join_text (anthropic.content rsp')) <> Raise e').
    { intros rendered' rsp' e' Hr' Hc' Hp'. rewrite Hr in Hr'. injection Hr' as <-.
      rewrite Hc in Hc'. injection Hc' as <-. rewrite Hp in Hp'. discriminate Hp'. }
    assert (Hv : (exists d, v = PDict d) \/ (forall d, v <> PDict d)).
    { destruct v; try (right; intros d' Hd; discriminate Hd). left; eauto. }
    destruct Hv as [[d ->]|Hv].
    + eexists; eexists; split;
        [apply (generate_object _ _ _ _ _ _ _ Hr rsp Hc d Hp)|].
      split; [left; reflexivity|].
      split; [|split].
      * intros e' Hr'. destruct (Hno_render e' Hr').
      * intros rendered' e' Hr' Hc'. destruct (Hno_create rendered' e' Hr' Hc').
      * intros rendered' rsp' e' Hr' Hc' Hp'.
        destruct (Hno_decode rendered' rsp' e' Hr' Hc' Hp').
    + eexists; eexists; split;
        [apply (generate_not_an_object _ _ _ _ _ _ _ Hr rsp Hc v Hp Hv)|].
      split; [right; split; [reflexivity | eexists; reflexivity]|].
      split; [|split].
      * intros e' Hr'. destruct (Hno_render e' Hr').
      * intros rendered' e' Hr' Hc'. destruct (Hno_create rendered' e' Hr' Hc').
      * intros rendered' rsp' e' Hr' Hc' Hp'.
        destruct (Hno_decode rendered' rsp' e' Hr' Hc' Hp').
  - assert (Hdecode : forall rendered' rsp' e',
              _render rt self prompt tn (Some (or_empty vars)) (tick w)
                = (Return rendered', tick w) ->
              messages_create rt (claude self) (create_call self rendered')
                = Return rsp' ->
              json.loads (int_max_str_digits rt) (recursion_room rt)
                (join_text (anthropic.content rsp')) = Raise e' ->
              e' = e).
    { intros rendered' rsp' e' Hr' Hc' Hp'. rewrite Hr in Hr'. injection Hr' as <-.
      rewrite Hc in Hc'. injection Hc' as <-. rewrite Hp in Hp'.
      injection Hp' as <-. reflexivity. }
    destruct (is_JSONDecodeError e) eqn:He.
    + eexists; eexists; split;
        [apply (generate_decode_error _ _ _ _ _ _ _ Hr rsp Hc e Hp He)|].
      split; [left; reflexivity|].
      split; [|split].
      * intros e' Hr'. destruct (Hno_render e' Hr').
      * intros rendered' e' Hr' Hc'. destruct (Hno_create rendered' e' Hr' Hc').
      * intros rendered' rsp' e' Hr' Hc' Hp' He'.
        rewrite (Hdecode rendered' rsp' e' Hr' Hc' Hp') in He'.
        rewrite He in He'. discriminate He'.
    + eexists; eexists; split;
        [apply (generate_decode_other_error _ _ _ _ _ _ _ Hr rsp Hc e Hp He)|].
      split; [right; split; [reflexivity | eexists; reflexivity]|].
      split; [|split].
      * intros e' Hr'. destruct (Hno_render e' Hr').
      * intros rendered' e' Hr' Hc'. destruct (Hno_create rendered' e' Hr' Hc').
      * intros rendered' rsp' e' Hr' Hc' Hp' _.
        rewrite (Hdecode rendered' rsp' e' Hr' Hc' Hp'). repeat split.
Qed.

Lemma generate_always_returns_witness :
  exists r w',
    generate (replying (Raise auth_failure)) sample_self "Say hello" None None start
      = (Return r, w') /\
    IntegratedResponse.success r = false /\
    IntegratedResponse.error r = Some "Error code: 401 - invalid x-api-key".
Proof.
  destruct (generate_always_returns (replying (Raise auth_failure)) sample_self
              "Say hello" None None start)
    as (r & w' & Hg & _ & _ & Hcall & _).
  exists r, w'. split; [exact Hg|].
  destruct (Hcall "Say hello" auth_failure eq_refl eq_refl) as (Hs & He & _).
  split; [exact Hs | exact He].
Defined.

(** ** The compatibility entry point *)

(** The variables [orchestrate] passes on: the request's own, then the
    reserved keys [context] and [tools]. *)
Lemma orchestrate_generate rt self request w :
  orchestrate rt self request w =
    match generate rt self
            (OrchestrationRequest.prompt request)
            (OrchestrationRequest.template_name request)
            (Some (dict_set
                     (dict_set (or_empty (OrchestrationRequest.variables request))
                        "context" (opt_dict (OrchestrationRequest.context request)))
                     "tools" (opt_strs (OrchestrationRequest.tools request)))) w
    with
    | (Return result, w') =>
        if IntegratedResponse.success result then
          (Return
             {| OrchestrationResponse.content :=
                  py_or (nonzero rt) (IntegratedResponse.response result) (PStr "");
                OrchestrationResponse.usage :=
                  [("input_tokens", 0%Z); ("output_tokens", 0%Z)];
                OrchestrationResponse.model := config.claude_model (config self);
                OrchestrationResponse.tools_used :=
                  or_empty (OrchestrationRequest.tools request);
                OrchestrationResponse.metadata :=
                  or_empty (IntegratedResponse.metadata result);
                OrchestrationResponse.confidence_score :=
                  IntegratedResponse.confidence_score result;
                OrchestrationResponse.reasoning_chain :=
                  IntegratedResponse.reasoning_chain result |}, w')
        else
          (Raise (mkExn Exception_
                    (str_or (IntegratedResponse.error result) "Orchestration failed")),
           w')
    | (Raise e, w') => (Raise e, w')
    end.
Proof.
  unfold orchestrate, bind.
  destruct (generate rt self _ _ _ w) as [[result|e] w']; [|reflexivity].
  destruct (IntegratedResponse.success result); reflexivity.
Qed.

(** C7.  When the underlying [generate] comes back with [success=false],
    [orchestrate] raises an exception carrying the error (or a fixed message
    when the error is empty) and returns no record. *)
Theorem orchestrate_raises_on_failure rt self request w result w' :
  generate rt self
    (OrchestrationRequest.prompt request)
    (OrchestrationRequest.template_name request)
    (Some (dict_set
             (dict_set (or_empty (OrchestrationRequest.variables request))
                "context" (opt_dict (OrchestrationRequest.context request)))
             "tools" (opt_strs (OrchestrationRequest.tools request)))) w
    = (Return result, w') ->
  IntegratedResponse.success result = false ->
  orchestrate rt self request w =
    (Raise (mkExn Exception_
              (str_or (IntegratedResponse.error result) "Orchestration failed")), w').
Proof.
  intros Hg Hs. rewrite orchestrate_generate, Hg, Hs. reflexivity.
Qed.

Lemma orchestrate_raises_on_failure_witness :
  orchestrate (replying (Raise auth_failure)) sample_self sample_request start =
    (Raise (mkExn Exception_ "Error code: 401 - invalid x-api-key"),
     {| ticks := 2;
        trace := [MessagesCreate (anthropic.AsyncAnthropic "sk-test")
                    {| anthropic.model := "claude-4";
                       anthropic.max_tokens := 100000;
                       anthropic.temperature := FLit "0.7";
                       anthropic.messages := [("user", "Say hello")] |}] |}).
Proof.
  apply (orchestrate_raises_on_failure (replying (Raise auth_failure)) sample_self
           sample_request start
           {| IntegratedResponse.success := false;
              IntegratedResponse.response := PNone;
              IntegratedResponse.error := Some "Error code: 401 - invalid x-api-key";
              IntegratedResponse.metadata :=
                Some [("processing_time", PFloat (FSub (FClock 1) (FClock 0)))];
              IntegratedResponse.confidence_score := PNone;
              IntegratedResponse.reasoning_chain := PNone;
              IntegratedResponse.localized_elements := PNone |}).
  - vm_compute. reflexivity.
  - reflexivity.
Defined.

(** On success the record is built from the result. *)
Example orchestrate_hello :
  fst (orchestrate (replying (text_reply "Hello!")) sample_self sample_request start)
  = Return
      {| OrchestrationResponse.content := PStr "Hello!";
         OrchestrationResponse.usage := [("input_tokens", 0%Z); ("output_tokens", 0%Z)];
         OrchestrationResponse.model := "claude-4";
         OrchestrationResponse.tools_used := ["validation"];
         OrchestrationResponse.metadata :=
           [("processing_time", PFloat (FSub (FClock 1) (FClock 0)));
            ("model_used", PStr "claude-4")];
         OrchestrationResponse.confidence_score := PNone;
         OrchestrationResponse.reasoning_chain := PNone |}.
Proof. vm_compute. reflexivity. Qed.

(** ** Start-up *)

Lemma validate_rejects_empty_key rt cfg w :
  config.anthropic_api_key cfg = "" ->
  config.validate rt cfg w = (Raise (mkExn ValueError "ANTHROPIC_API_KEY is required"), w).
Proof.
  intros Hk. unfold config.validate. rewrite Hk. reflexivity.
Qed.

Lemma constructor_rejects_empty_key rt defaults cfg w :
  config.anthropic_api_key (match cfg with Some c => c | None => defaults end) = "" ->
  __init__ rt defaults cfg w
    = (Raise (mkExn ValueError "ANTHROPIC_API_KEY is required"), w).
Proof.
  intros Hk. unfold __init__, bind.
  rewrite (validate_rejects_empty_key rt _ w Hk). reflexivity.
Qed.

(** C8.  With an empty API key in the configuration passed in, or, when none
    is passed, with [ANTHROPIC_API_KEY] unset or empty in the environment,
    constructing the orchestrator raises [ValueError] and leaves the world
    untouched: no directory is made, no client is built, no call goes out.
    Loading the service module fails the same way, so no request is served. *)
Theorem init_without_api_key rt environ env_max_tokens env_temperature cfg w :
  (exists c, cfg = Some c /\ config.anthropic_api_key c = "") \/
  (cfg = None /\
   (environ "ANTHROPIC_API_KEY" = None \/ environ "ANTHROPIC_API_KEY" = Some "")) ->
  __init__ rt (config.IntegratedConfig_ environ env_max_tokens env_temperature) cfg w
    = (Raise (mkExn ValueError "ANTHROPIC_API_KEY is required"), w) /\
  (cfg = None ->
   service.load rt (config.IntegratedConfig_ environ env_max_tokens env_temperature) w
     = (Raise (mkExn ValueError "ANTHROPIC_API_KEY is required"), w)).
Proof.
  intros H.
  assert (Hdef : cfg = None ->
                 config.anthropic_api_key
                   (config.IntegratedConfig_ environ env_max_tokens env_temperature) = "").
  { intros ->. destruct H as [(c & Hc & _) | (_ & He)]; [discriminate|].
    unfold config.IntegratedConfig_, config.getenv; simpl.
    destruct He as [-> | ->]; reflexivity. }
  split.
  - apply constructor_rejects_empty_key.
    destruct H as [(c & -> & Hk) | (-> & _)]; [exact Hk | apply Hdef; reflexivity].
  - intros Hn. unfold service.load, bind.
    rewrite (constructor_rejects_empty_key rt _ (Some _) w (Hdef Hn)). reflexivity.
Qed.

Lemma init_without_api_key_witness :
  __init__ (replying (text_reply "Hello!"))
    (config.IntegratedConfig_ bare_environ None None) None start
    = (Raise (mkExn ValueError "ANTHROPIC_API_KEY is required"), start) /\
  service.load (replying (text_reply "Hello!"))
    (config.IntegratedConfig_ bare_environ None None) start
    = (Raise (mkExn ValueError "ANTHROPIC_API_KEY is required"), start).
Proof.
  destruct (init_without_api_key (replying (text_reply "Hello!")) bare_environ None
              None None start) as [Hi Hl].
  - right. split; [reflexivity|]. left. reflexivity.
  - split; [exact Hi | apply Hl; reflexivity].
Defined.

(** With a key the construction goes through: directory, then client. *)
Example init_with_api_key :
  __init__ (replying (text_reply "Hello!")) sample_config None start
  = (Return sample_self,
     {| ticks := 0;
        trace := [Mkdir (Path_ "./templates");
                  NewClient (anthropic.AsyncAnthropic "sk-test")] |}).
Proof. reflexivity. Qed.

(** ** Overrides of the request *)

(** C9.  The [max_tokens] and [temperature] of the request have no effect on
    [orchestrate]: its outcome and the calls it makes are the same whatever
    they are, and the one call to the remote model, when it is made, carries
    the configured values. *)
Theorem orchestrate_ignores_overrides rt self request mt temp w :
  orchestrate rt self
    {| OrchestrationRequest.prompt := OrchestrationRequest.prompt request;
       OrchestrationRequest.context := OrchestrationRequest.context request;
       OrchestrationRequest.tools := OrchestrationRequest.tools request;
       OrchestrationRequest.max_tokens := mt;
       OrchestrationRequest.temperature := temp;
       OrchestrationRequest.template_name := OrchestrationRequest.template_name request;
       OrchestrationRequest.variables := OrchestrationRequest.variables request |} w
  = orchestrate rt self request w
  /\
  exists calls,
    trace (snd (orchestrate rt self request w)) = (trace w ++ calls)%list /\
    (calls = [] \/
     exists rendered,
       calls = [MessagesCreate (claude self)
                  {| anthropic.model := config.claude_model (config self);
                     anthropic.max_tokens := config.max_tokens (config self);
                     anthropic.temperature := config.temperature (config self);
                     anthropic.messages := [("user", rendered)] |}]).
Proof.
  split; [reflexivity|].
  rewrite orchestrate_generate.
  destruct (generate_cases rt self
              (OrchestrationRequest.prompt request)
              (OrchestrationRequest.template_name request)
              (Some (dict_set
                       (dict_set (or_empty (OrchestrationRequest.variables request))
                          "context" (opt_dict (OrchestrationRequest.context request)))
                       "tools" (opt_strs (OrchestrationRequest.tools request)))) w)
    as (r & w' & Hg & _ & Hw).
  rewrite Hg.
  assert (Ht : exists calls,
             trace w' = (trace w ++ calls)%list /\
             (calls = [] \/
              exists rendered,
                calls = [MessagesCreate (claude self) (create_call self rendered)])).
  { destruct Hw as [-> | (rendered & ->)].
    - exists []. split; [simpl; rewrite app_nil_r; reflexivity | left; reflexivity].
    - eexists. split; [reflexivity | right; eauto]. }
  destruct (IntegratedResponse.success r); exact Ht.
Qed.

(** The overrides of the sample request ask for 16 tokens at temperature 0;
    the call goes out with the configured 100000 and 0.7. *)
Example orchestrate_sample_call :
  trace (snd (orchestrate (replying (text_reply "Hello!")) sample_self sample_request start))
  = [MessagesCreate (anthropic.AsyncAnthropic "sk-test")
       {| anthropic.model := "claude-4";
          anthropic.max_tokens := 100000;
          anthropic.temperature := FLit "0.7";
          anthropic.messages := [("user", "Say hello")] |}].
Proof. vm_compute. reflexivity. Qed.

(** ** The HTTP endpoint *)

(** C10.  [POST /orchestrate] runs [generate] on the payload and always
    returns a body built from its result; it raises nothing.  When the
    result is a failure the body's content is [None], its usage counters are
    zero and its metadata is that of the failure. *)
Theorem service_orchestrate_returns rt a p w :
  exists res w' body,
    generate rt (service.ai a) (service.prompt p) (service.template_name p)
      (service.variables p) w = (Return res, w') /\
    service.orchestrate rt a p w = (Return body, w') /\
    dict_lookup body "content" = Some (IntegratedResponse.response res) /\
    dict_lookup body "usage"
      = Some (PDict [("input_tokens", PInt 0); ("output_tokens", PInt 0)]) /\
    dict_lookup body "metadata"
      = Some (PDict (or_empty (IntegratedResponse.metadata res))) /\
    (IntegratedResponse.success res = true \/
     IntegratedResponse.success res = false /\
     dict_lookup body "content" = Some PNone /\
     dict_lookup body "metadata"
       = Some (PDict [("processing_time",
                       PFloat (FSub (FClock (S (ticks w))) (FClock (ticks w))))])).
Proof.
  destruct (generate_cases rt (service.ai a) (service.prompt p) (service.template_name p)
              (service.variables p) w) as (res & w' & Hg & Hcase & _).
  exists res, w'. eexists. split; [exact Hg|].
  split; [unfold service.orchestrate, bind; rewrite Hg; reflexivity|].
  split; [reflexivity|]. split; [reflexivity|]. split; [reflexivity|].
  destruct Hcase as [(Hs & Hresp & _ & Hmeta & _) | (Hs & _)].
  - right. split; [exact Hs|]. simpl. rewrite Hresp, Hmeta. split; reflexivity.
  - left. exact Hs.
Qed.

(** The endpoint and the adapter on the same failure: a body from the one,
    an exception from the other. *)
Example service_orchestrate_on_failure :
  fst (service.orchestrate (replying (Raise auth_failure)) sample_app sample_payload start)
  = Return
      [("content", PNone);
       ("usage", PDict [("input_tokens", PInt 0); ("output_tokens", PInt 0)]);
       ("model", PStr "claude-4");
       ("tools_used", PList []);
       ("metadata", PDict [("processing_time", PFloat (FSub (FClock 1) (FClock 0)))]);
       ("confidence_score", PNone);
       ("reasoning_chain", PNone)]
  /\
  fst (orchestrate (replying (Raise auth_failure)) sample_self sample_request start)
  = Raise (mkExn Exception_ "Error code: 401 - invalid x-api-key").
Proof. split; vm_compute; reflexivity. Qed.

(** * Further properties *)

Lemma dict_or_not (v : pyval) : (exists d, v = PDict d) \/ (forall d, v <> PDict d).
Proof.
  destruct v; try (right; intros d' Hd; discriminate Hd). left; eauto.
Qed.

(** The case analysis of [generate]: in each case [Hgen] is the equation of
    the call. *)
Ltac generate_by_cases rt self prompt tn vars w :=
  let rendered := fresh "rendered" in
  let e := fresh "e" in
  let rsp := fresh "rsp" in
  let v := fresh "v" in
  let d := fresh "d" in
  let Hr := fresh "Hr" in
  let Hc := fresh "Hc" in
  let Hp := fresh "Hp" in
  let He := fresh "He" in
  let Hv := fresh "Hv" in
  destruct (_render_outcome rt self prompt tn (Some (or_empty vars)) (tick w))
    as [[rendered|e] Hr];
  [ destruct (messages_create rt (claude self) (create_call self rendered))
      as [rsp|e] eqn:Hc;
    [ destruct (json.loads (int_max_str_digits rt) (recursion_room rt)
                  (join_text (anthropic.content rsp))) as [v|e] eqn:Hp;
      [ destruct (dict_or_not v) as [[d ->]|Hv];
        [ pose proof (generate_object rt self prompt tn vars w rendered Hr rsp Hc d Hp)
            as Hgen
        | pose proof (generate_not_an_object rt self prompt tn vars w rendered Hr rsp Hc
                        v Hp Hv) as Hgen ]
      | destruct (is_JSONDecodeError e) eqn:He;
        [ pose proof (generate_decode_error rt self prompt tn vars w rendered Hr rsp Hc
                        e Hp He) as Hgen
        | pose proof (generate_decode_other_error rt self prompt tn vars w rendered Hr
                        rsp Hc e Hp He) as Hgen ] ]
    | pose proof (generate_create_raises rt self prompt tn vars w rendered Hr e Hc)
        as Hgen ]
  | pose proof (generate_render_raises rt self prompt tn vars w e Hr) as Hgen ].

(** ** What a result carries *)

(** X1.  The metadata of a result always starts with the elapsed time; the
    model identifier follows on a successful result and only there. *)
Theorem generate_metadata_by_outcome rt self prompt tn vars w r w' :
  generate rt self prompt tn vars w = (Return r, w') ->
  IntegratedResponse.metadata r =
    Some (("processing_time", PFloat (FSub (FClock (S (ticks w))) (FClock (ticks w))))
          :: if IntegratedResponse.success r
             then [("model_used", PStr (config.claude_model (config self)))]
             else []).
Proof.
  intros Hg.
  generate_by_cases rt self prompt tn vars w;
    rewrite Hgen in Hg; injection Hg as <- <-; reflexivity.
Qed.

Lemma generate_metadata_by_outcome_witness :
  IntegratedResponse.metadata hello_result =
    Some [("processing_time", PFloat (FSub (FClock 1) (FClock 0)));
          ("model_used", PStr "claude-4")].
Proof.
  apply (generate_metadata_by_outcome (replying (text_reply "Hello!")) sample_self
           "Say hello" None None start hello_result hello_world).
  vm_compute. reflexivity.
Defined.

(** ** What a call does to the world *)

(** X2.  A call reads the clock twice.  It calls the remote model once, with
    the configured model, token budget and temperature and the rendered text
    as the single user message, when the resolver returned; it calls nothing
    when the resolver raised. *)
Theorem generate_clock_and_calls rt self prompt tn vars w :
  ticks (snd (generate rt self prompt tn vars w)) = S (S (ticks w)) /\
  ((exists e,
      _render rt self prompt tn (Some (or_empty vars)) (tick w) = (Raise e, tick w) /\
      trace (snd (generate rt self prompt tn vars w)) = trace w)
   \/
   (exists rendered,
      _render rt self prompt tn (Some (or_empty vars)) (tick w)
        = (Return rendered, tick w) /\
      trace (snd (generate rt self prompt tn vars w))
        = (trace w ++ [MessagesCreate (claude self)
                         {| anthropic.model := config.claude_model (config self);
                            anthropic.max_tokens := config.max_tokens (config self);
                            anthropic.temperature := config.temperature (config self);
                            anthropic.messages := [("user", rendered)] |}])%list)).
Proof.
  generate_by_cases rt self prompt tn vars w; rewrite Hgen; simpl;
    (split; [reflexivity|]);
    first [ right; eexists; split; [eassumption | reflexivity]
          | left; eexists; split; [eassumption | reflexivity] ].
Qed.

(** X3.  A result is successful exactly when the resolver returned, the
    remote call answered, and the text of the answer either parses as a JSON
    object or is refused by the decoder with [JSONDecodeError]; any other
    decoder outcome (a JSON value that is no object, another exception)
    gives a failed result. *)
Theorem generate_success_iff rt self prompt tn vars w r w' :
  generate rt self prompt tn vars w = (Return r, w') ->
  (IntegratedResponse.success r = true <->
   exists rendered rsp,
     _render rt self prompt tn (Some (or_empty vars)) (tick w)
       = (Return rendered, tick w) /\
     messages_create rt (claude self) (create_call self rendered) = Return rsp /\
     ((exists d,
         json.loads (int_max_str_digits rt) (recursion_room rt)
           (join_text (anthropic.content rsp)) = Return (PDict d))
      \/
      (exists e,
         json.loads (int_max_str_digits rt) (recursion_room rt)
           (join_text (anthropic.content rsp)) = Raise e /\
         exn_cls e = JSONDecodeError))).
Proof.
  intros Hg.
  generate_by_cases rt self prompt tn vars w;
    rewrite Hgen in Hg; injection Hg as <- <-; cbn [IntegratedResponse.success].
  - split; [intros _ | reflexivity].
    exists rendered, rsp. split; [exact Hr|]. split; [exact Hc|].
    left. exists d. exact Hp.
  - split; [discriminate|].
    intros (rendered' & rsp' & Hr' & Hc' & H).
    rewrite Hr in Hr'. injection Hr' as <-. rewrite Hc in Hc'. injection Hc' as <-.
    rewrite Hp in H. destruct H as [(d & H) | (e' & H & _)]; [|discriminate H].
    injection H as ->. exfalso. exact (Hv d eq_refl).
  - split; [intros _ | reflexivity].
    exists rendered, rsp. split; [exact Hr|]. split; [exact Hc|].
    right. exists e. split; [exact Hp|].
    unfold is_JSONDecodeError in He. destruct (exn_cls e); try discriminate He.
    reflexivity.
  - split; [discriminate|].
    intros (rendered' & rsp' & Hr' & Hc' & H).
    rewrite Hr in Hr'. injection Hr' as <-. rewrite Hc in Hc'. injection Hc' as <-.
    rewrite Hp in H. destruct H as [(d & H) | (e' & H & Hcls)]; [discriminate H|].
    injection H as <-. unfold is_JSONDecodeError in He. rewrite Hcls in He.
    discriminate He.
  - split; [discriminate|].
    intros (rendered' & rsp' & Hr' & Hc' & _).
    rewrite Hr in Hr'. injection Hr' as <-. rewrite Hc in Hc'. discriminate Hc'.
  - split; [discriminate|].
    intros (rendered' & rsp' & Hr' & _). rewrite Hr in Hr'. discriminate Hr'.
Qed.

Lemma generate_success_iff_witness :
  IntegratedResponse.success hello_result = true.
Proof.
  apply (proj2 (generate_success_iff (replying (text_reply "Hello!")) sample_self
                  "Say hello" None None start hello_result hello_world
                  ltac:(vm_compute; reflexivity))).
  exists "Say hello".
  exists {| anthropic.content :=
              [{| anthropic.block_type := "text"; anthropic.text := Some "Hello!" |}] |}.
  split; [reflexivity|]. split; [reflexivity|].
  right. eexists. split; [vm_compute; reflexivity | reflexivity].
Defined.

(** ** The resolver with a template *)

Lemma set_variables_in_order vars ctx :
  fold_left (fun ctx kv => poml.set_variable ctx (fst kv) (snd kv)) vars ctx
  = {| poml.bindings := (poml.bindings ctx ++ vars)%list |}.
Proof.
  revert ctx. induction vars as [|[k v] vars IH]; intros ctx; simpl.
  - rewrite app_nil_r. destruct ctx; reflexivity.
  - rewrite IH. simpl. rewrite <- app_assoc. reflexivity.
Qed.

(** X4.  With the engine available and the template file in place, the
    resolver loads the file, binds every variable once, in the order of the
    mapping, and returns (or raises) what the engine's rendering returns (or
    raises); the prompt plays no part. *)
Theorem _render_with_template rt self prompt name vars w pf :
  name <> "" ->
  HAS_POML rt = true ->
  Path_exists rt (PathDiv (Path_ (config.templates_dir (config self))) (name ++ ".poml"))
    = Return true ->
  PomlFile_from_file rt
    (PathDiv (Path_ (config.templates_dir (config self))) (name ++ ".poml")) = Return pf ->
  _render rt self prompt (Some name) vars w
    = (PomlFile_render rt pf {| poml.bindings := or_empty vars |}, w).
Proof.
  intros Hn Hp Hex Hf. unfold _render.
  apply String.eqb_neq in Hn. rewrite Hn, Hp. simpl.
  unfold bind, lift. rewrite Hex, Hf.
  rewrite set_variables_in_order. reflexivity.
Qed.

Lemma _render_with_template_witness :
  _render (templating (text_reply "Hello!")) sample_self "Say hello" (Some "greeting")
    (Some [("user", PStr "Ada"); ("mood", PStr "calm")]) start
  = (Return "Greet the user.", start).
Proof.
  apply (_render_with_template (templating (text_reply "Hello!")) sample_self "Say hello"
           "greeting" (Some [("user", PStr "Ada"); ("mood", PStr "calm")]) start
           {| poml.source := PathDiv (Path_ "./templates") "greeting.poml" |}).
  - discriminate.
  - reflexivity.
  - reflexivity.
  - reflexivity.
Defined.

(** The three steps of the resolver that can raise. *)
Lemma _render_step_raises rt self prompt name vars w e :
  name <> "" ->
  HAS_POML rt = true ->
  (Path_exists rt (PathDiv (Path_ (config.templates_dir (config self))) (name ++ ".poml"))
     = Raise e
   \/
   Path_exists rt (PathDiv (Path_ (config.templates_dir (config self))) (name ++ ".poml"))
     = Return true /\
   (PomlFile_from_file rt
      (PathDiv (Path_ (config.templates_dir (config self))) (name ++ ".poml")) = Raise e
    \/
    exists pf,
      PomlFile_from_file rt
        (PathDiv (Path_ (config.templates_dir (config self))) (name ++ ".poml"))
        = Return pf /\
      PomlFile_render rt pf {| poml.bindings := or_empty vars |} = Raise e)) ->
  _render rt self prompt (Some name) vars w = (Raise e, w).
Proof.
  intros Hn Hp H. unfold _render.
  apply String.eqb_neq in Hn. rewrite Hn, Hp. simpl. unfold bind, lift, ret.
  destruct H as [Hex | (Hex & [Hf | (pf & Hf & Hrd)])]; rewrite Hex; try reflexivity.
  - rewrite Hf. reflexivity.
  - rewrite Hf, set_variables_in_order. simpl. rewrite Hrd. reflexivity.
Qed.

(** X5.  The resolver raises exactly when a template is named, the engine
    is available, and the existence test, the loading or the rendering
    raises; the exception is the one of that step. *)
Theorem _render_raises_iff rt self prompt tn vars w e :
  _render rt self prompt tn vars w = (Raise e, w) <->
  exists name,
    tn = Some name /\ name <> "" /\ HAS_POML rt = true /\
    (Path_exists rt (PathDiv (Path_ (config.templates_dir (config self))) (name ++ ".poml"))
       = Raise e
     \/
     Path_exists rt (PathDiv (Path_ (config.templates_dir (config self))) (name ++ ".poml"))
       = Return true /\
     (PomlFile_from_file rt
        (PathDiv (Path_ (config.templates_dir (config self))) (name ++ ".poml")) = Raise e
      \/
      exists pf,
        PomlFile_from_file rt
          (PathDiv (Path_ (config.templates_dir (config self))) (name ++ ".poml"))
          = Return pf /\
        PomlFile_render rt pf {| poml.bindings := or_empty vars |} = Raise e)).
Proof.
  split.
  - unfold _render.
    destruct tn as [name|]; [|discriminate].
    destruct (String.eqb_spec name "") as [->|Hn]; [discriminate|].
    destruct (HAS_POML rt) eqn:Hp; [|discriminate]. simpl.
    unfold bind, lift, ret.
    destruct (Path_exists rt _) as [[|]|e'] eqn:Hex; try discriminate.
    + destruct (PomlFile_from_file rt _) as [pf|e'] eqn:Hf.
      * rewrite set_variables_in_order. simpl. intros H.
        exists name. split; [reflexivity|]. split; [exact Hn|]. split; [reflexivity|].
        right. split; [exact Hex|].
        right. exists pf. split; [exact Hf|]. congruence.
      * intros H. injection H as ->.
        exists name. split; [reflexivity|]. split; [exact Hn|]. split; [reflexivity|].
        right. split; [exact Hex|]. left. exact Hf.
    + intros H. injection H as ->.
      exists name. split; [reflexivity|]. split; [exact Hn|]. split; [reflexivity|].
      left. exact Hex.
  - intros (name & -> & Hn & Hp & H).
    exact (_render_step_raises rt self prompt name vars w e Hn Hp H).
Qed.

(** A runtime whose engine fails to load the template. *)
Lemma _render_raises_iff_witness :
  _render broken_template sample_self "Say hello" (Some "greeting") None start
  = (Raise (mkExn (OtherError "PomlError") "unexpected end of template"), start).
Proof.
  apply (proj2 (_render_raises_iff broken_template sample_self "Say hello"
                  (Some "greeting") None start
                  (mkExn (OtherError "PomlError") "unexpected end of template"))).
  exists "greeting". split; [reflexivity|]. split; [discriminate|].
  split; [reflexivity|]. right. split; [reflexivity|]. left. reflexivity.
Defined.

(** X6.  When a template is named and the engine is available, an
    exception of the existence test, of the loading or of the rendering does
    not escape [generate]: the call returns a failed result whose error is
    the string form of that exception, and the remote model is not called. *)
Theorem generate_template_error rt self prompt name vars w e :
  name <> "" ->
  HAS_POML rt = true ->
  (Path_exists rt (PathDiv (Path_ (config.templates_dir (config self))) (name ++ ".poml"))
     = Raise e
   \/
   Path_exists rt (PathDiv (Path_ (config.templates_dir (config self))) (name ++ ".poml"))
     = Return true /\
   (PomlFile_from_file rt
      (PathDiv (Path_ (config.templates_dir (config self))) (name ++ ".poml")) = Raise e
    \/
    exists pf,
      PomlFile_from_file rt
        (PathDiv (Path_ (config.templates_dir (config self))) (name ++ ".poml"))
        = Return pf /\
      PomlFile_render rt pf {| poml.bindings := or_empty vars |} = Raise e)) ->
  exists r w',
    generate rt self prompt (Some name) vars w = (Return r, w') /\
    IntegratedResponse.success r = false /\
    IntegratedResponse.error r = Some (exn_str e) /\
    IntegratedResponse.response r = PNone /\
    trace w' = trace w.
Proof.
  intros Hn Hp H.
  pose proof (_render_step_raises rt self prompt name (Some (or_empty vars)) (tick w) e
                Hn Hp H) as Hr.
  eexists; eexists. split.
  - apply (generate_render_raises rt self prompt (Some name) vars w e Hr).
  - repeat split.
Qed.

Lemma generate_template_error_witness :
  exists r w',
    generate broken_template sample_self "Say hello" (Some "greeting") None start
      = (Return r, w') /\
    IntegratedResponse.success r = false /\
    IntegratedResponse.error r = Some "unexpected end of template" /\
    IntegratedResponse.response r = PNone /\
    trace w' = [].
Proof.
  apply (generate_template_error broken_template sample_self "Say hello" "greeting"
           None start (mkExn (OtherError "PomlError") "unexpected end of template")).
  - discriminate.
  - reflexivity.
  - right. split; [reflexivity|]. left. reflexivity.
Defined.

(** X7.  Without a template name, without the engine, or without the
    template file, the one message sent to the remote model is the prompt as
    it was passed in. *)
Theorem generate_sends_prompt rt self prompt tn vars w :
  tn = None \/
  HAS_POML rt = false \/
  (exists name,
     tn = Some name /\
     Path_exists rt (PathDiv (Path_ (config.templates_dir (config self))) (name ++ ".poml"))
       = Return false) ->
  trace (snd (generate rt self prompt tn vars w))
    = (trace w ++ [MessagesCreate (claude self) (create_call self prompt)])%list.
Proof.
  intros H.
  assert (Hp : _render rt self prompt tn (Some (or_empty vars)) (tick w)
               = (Return prompt, tick w)).
  { destruct H as [-> | [Hp | (name & -> & Hex)]].
    - reflexivity.
    - unfold _render. destruct tn as [name|]; [|reflexivity].
      rewrite Hp, andb_false_r. reflexivity.
    - unfold _render.
      destruct (negb (String.eqb name "") && HAS_POML rt); [|reflexivity].
      unfold bind, lift. rewrite Hex. reflexivity. }
  generate_by_cases rt self prompt tn vars w; rewrite Hgen; simpl;
    rewrite Hp in *; congruence.
Qed.

Lemma generate_sends_prompt_witness :
  trace (snd (generate (templating (text_reply "Hello!")) sample_self "Say hello"
                (Some "farewell") None start))
  = [MessagesCreate (anthropic.AsyncAnthropic "sk-test")
       {| anthropic.model := "claude-4";
          anthropic.max_tokens := 100000;
          anthropic.temperature := FLit "0.7";
          anthropic.messages := [("user", "Say hello")] |}].
Proof.
  apply (generate_sends_prompt (templating (text_reply "Hello!")) sample_self "Say hello"
           (Some "farewell") None start).
  right. right. exists "farewell". split; reflexivity.
Defined.

(** ** The text of a reply *)

Lemma append_empty_r (s : string) : s ++ "" = s.
Proof. induction s as [|c s IH]; simpl; [reflexivity | rewrite IH; reflexivity]. Qed.


Lemma concat_empty_cons (x : string) (l : list string) :
  String.concat "" (x :: l) = x ++ String.concat "" l.
Proof.
  destruct l as [|y l]; simpl; [rewrite append_empty_r; reflexivity | reflexivity].
Qed.

Lemma join_text_cons b blocks :
  join_text (b :: blocks)
  = match anthropic.text b with Some t => t | None => "" end ++ join_text blocks.
Proof. unfold join_text. rewrite map_cons. apply concat_empty_cons. Qed.


Lemma join_text_textless blocks :
  Forall (fun b => anthropic.text b = None) blocks -> join_text blocks = "".
Proof.
  induction 1 as [|b blocks Hb _ IH]; [reflexivity|].
  rewrite join_text_cons, Hb, IH. reflexivity.
Qed.

Lemma loads_empty max_digits depth :
  json.loads max_digits depth ""
  = Raise (mkExn JSONDecodeError "Expecting value: line 1 column 1 (char 0)").
Proof. destruct depth; reflexivity. Qed.

(** X9.  A reply none of whose blocks carries text (an empty reply
    included) comes back as a successful result with the empty string as
    text and no score, steps or elements. *)
Theorem generate_textless_reply rt self prompt tn vars w rendered rsp :
  _render rt self prompt tn (Some (or_empty vars)) (tick w) = (Return rendered, tick w) ->
  messages_create rt (claude self) (create_call self rendered) = Return rsp ->
  Forall (fun b => anthropic.text b = None) (anthropic.content rsp) ->
  exists r w',
    generate rt self prompt tn vars w = (Return r, w') /\
    IntegratedResponse.success r = true /\
    IntegratedResponse.response r = PStr "" /\
    IntegratedResponse.error r = None /\
    IntegratedResponse.confidence_score r = PNone /\
    IntegratedResponse.reasoning_chain r = PNone /\
    IntegratedResponse.localized_elements r = PNone.
Proof.
  intros Hr Hc Hb.
  pose proof (join_text_textless _ Hb) as Ht.
  eexists; eexists. split.
  - apply (generate_decode_error rt self prompt tn vars w rendered Hr rsp Hc
             (mkExn JSONDecodeError "Expecting value: line 1 column 1 (char 0)")).
    + rewrite Ht. apply loads_empty.
    + reflexivity.
  - rewrite Ht. repeat split.
Qed.

Lemma generate_textless_reply_witness :
  exists r w',
    generate (replying tool_use_reply) sample_self "Search the repo" None None start
      = (Return r, w') /\
    IntegratedResponse.success r = true /\
    IntegratedResponse.response r = PStr "" /\
    IntegratedResponse.error r = None /\
    IntegratedResponse.confidence_score r = PNone /\
    IntegratedResponse.reasoning_chain r = PNone /\
    IntegratedResponse.localized_elements r = PNone.
Proof.
  apply (generate_textless_reply (replying tool_use_reply) sample_self "Search the repo"
           None None start "Search the repo"
           {| anthropic.content :=
                [{| anthropic.block_type := "tool_use"; anthropic.text := None |}] |}).
  - reflexivity.
  - reflexivity.
  - repeat constructor.
Defined.

(** A text that starts, after white space, with a character no JSON value
    starts with is refused by the decoder with [JSONDecodeError]; so is a
    blank text. *)
Lemma loads_refuses_prose max_digits depth s :
  match json.skip_ws (list_ascii_of_string s) with
  | [] => True
  | c :: _ => may_start_json c = false
  end ->
  exists e, json.loads max_digits depth s = Raise e /\ is_JSONDecodeError e = true.
Proof.
  intros H. unfold json.loads.
  destruct (String.prefix json.bom s); [eexists; split; reflexivity|].
  destruct (json.skip_ws (list_ascii_of_string s)) as [|c r] eqn:Hs.
  - destruct depth; eexists; split; reflexivity.
  - unfold may_start_json in H.
    repeat (apply orb_false_elim in H;
            let Hx := fresh "Hx" in destruct H as [H Hx]).
    assert (Hzero : Ascii.eqb c "0" = false).
    { destruct (Ascii.eqb_spec c "0") as [->|]; [discriminate | reflexivity]. }
    assert (Hscan : json.scan_once max_digits depth (c :: r)
                    = inl (json.StopIteration (length (c :: r)))).
    { destruct depth;
        cbn -[json.starts_with json.match_number skipn length];
        repeat match goal with
               | Hx : ?b = false |- context [?b] => rewrite Hx
               end;
        cbn -[json.starts_with json.match_number skipn length];
        unfold json.match_number;
        repeat match goal with
               | Hx : ?b = false |- context [?b] => rewrite Hx
               end;
        reflexivity. }
    rewrite Hscan. eexists; split; reflexivity.
Qed.

(** X10.  A reply whose text, after leading white space, starts with a
    character that cannot start a JSON value (ordinary prose: a letter other
    than n, t, f, N and I, or punctuation other than a quote, a brace, a
    bracket and a minus sign), and likewise a blank text, comes back as a
    successful result with that text unchanged. *)
Theorem generate_prose_reply rt self prompt tn vars w rendered rsp :
  _render rt self prompt tn (Some (or_empty vars)) (tick w) = (Return rendered, tick w) ->
  messages_create rt (claude self) (create_call self rendered) = Return rsp ->
  match json.skip_ws (list_ascii_of_string (join_text (anthropic.content rsp))) with
  | [] => True
  | c :: _ => may_start_json c = false
  end ->
  exists r w',
    generate rt self prompt tn vars w = (Return r, w') /\
    IntegratedResponse.success r = true /\
    IntegratedResponse.response r = PStr (join_text (anthropic.content rsp)) /\
    IntegratedResponse.error r = None.
Proof.
  intros Hr Hc Hs.
  destruct (loads_refuses_prose (int_max_str_digits rt) (recursion_room rt) _ Hs)
    as (e & Hp & He).
  eexists; eexists. split.
  - apply (generate_decode_error rt self prompt tn vars w rendered Hr rsp Hc e Hp He).
  - repeat split.
Qed.

Lemma generate_prose_reply_witness :
  exists r w',
    generate (replying (text_reply "  Hello, world!")) sample_self "Say hello" None None
      start = (Return r, w') /\
    IntegratedResponse.success r = true /\
    IntegratedResponse.response r = PStr "  Hello, world!" /\
    IntegratedResponse.error r = None.
Proof.
  apply (generate_prose_reply (replying (text_reply "  Hello, world!")) sample_self
           "Say hello" None None start "Say hello"
           {| anthropic.content :=
                [{| anthropic.block_type := "text";
                    anthropic.text := Some "  Hello, world!" |}] |}).
  - reflexivity.
  - reflexivity.
  - reflexivity.
Defined.

(** ** The variables of [orchestrate] *)

Lemma dict_lookup_set_same d k v : dict_lookup (dict_set d k v) k = Some v.
Proof.
  induction d as [|[k' v'] d IH]; simpl.
  - rewrite String.eqb_refl. reflexivity.
  - destruct (String.eqb k' k) eqn:E; simpl.
    + rewrite String.eqb_refl. reflexivity.
    + rewrite E. exact IH.
Qed.

Lemma dict_lookup_set_other d k v k' :
  k' <> k -> dict_lookup (dict_set d k v) k' = dict_lookup d k'.
Proof.
  intros Hk. induction d as [|[k0 v0] d IH]; simpl.
  - destruct (String.eqb_spec k k'); [congruence | reflexivity].
  - destruct (String.eqb_spec k0 k) as [->|Hn]; simpl.
    + destruct (String.eqb_spec k k'); [congruence | reflexivity].
    + destruct (String.eqb k0 k'); [reflexivity | exact IH].
Qed.



(** X11.  In the variables [orchestrate] hands to [generate], [context] and
    [tools] are the context and the tools of the request, also when the
    variables of the request have entries under these keys; every other key
    has the value the request gave it. *)
Theorem orchestrate_reserved_keys rt self request w :
  snd (orchestrate rt self request w)
    = snd (generate rt self (OrchestrationRequest.prompt request)
             (OrchestrationRequest.template_name request)
             (Some (merged_variables request)) w) /\
  dict_lookup (merged_variables request) "context"
    = Some (opt_dict (OrchestrationRequest.context request)) /\
  dict_lookup (merged_variables request) "tools"
    = Some (opt_strs (OrchestrationRequest.tools request)) /\
  (forall k, k <> "context" -> k <> "tools" ->
     dict_lookup (merged_variables request) k
       = dict_lookup (or_empty (OrchestrationRequest.variables request)) k).
Proof.
  split; [|split; [|split]].
  - rewrite orchestrate_generate. unfold merged_variables.
    destruct (generate rt self _ _ _ w) as [[result|e] w']; [|reflexivity].
    destruct (IntegratedResponse.success result); reflexivity.
  - unfold merged_variables.
    rewrite dict_lookup_set_other by discriminate. apply dict_lookup_set_same.
  - unfold merged_variables. apply dict_lookup_set_same.
  - intros k Hc Ht. unfold merged_variables.
    rewrite !dict_lookup_set_other by assumption. reflexivity.
Qed.



(** The caller's [tools] entry is replaced in place, [context] is added. *)
Example merged_variables_crowded :
  merged_variables crowded_request
  = [("tools", PList [PStr "validation"]); ("style", PStr "google"); ("context", PNone)].
Proof. reflexivity. Qed.

(** X13.  With a template in place, what [orchestrate] sends to the remote
    model is the template rendered with the merged variables; the prompt of
    the request is not sent. *)
Theorem orchestrate_sends_rendering rt self request w name pf rendered :
  OrchestrationRequest.template_name request = Some name ->
  name <> "" ->
  HAS_POML rt = true ->
  Path_exists rt (PathDiv (Path_ (config.templates_dir (config self))) (name ++ ".poml"))
    = Return true ->
  PomlFile_from_file rt
    (PathDiv (Path_ (config.templates_dir (config self))) (name ++ ".poml")) = Return pf ->
  PomlFile_render rt pf {| poml.bindings := merged_variables request |} = Return rendered ->
  trace (snd (orchestrate rt self request w))
    = (trace w ++ [MessagesCreate (claude self) (create_call self rendered)])%list.
Proof.
  intros Htn Hn Hp Hex Hf Hrd.
  assert (Hr : _render rt self (OrchestrationRequest.prompt request)
                 (OrchestrationRequest.template_name request)
                 (Some (or_empty (Some (merged_variables request)))) (tick w)
               = (Return rendered, tick w)).
  { rewrite Htn. unfold _render.
    apply String.eqb_neq in Hn. rewrite Hn, Hp. simpl.
    unfold bind, lift. rewrite Hex, Hf, set_variables_in_order. simpl.
    rewrite Hrd. reflexivity. }
  rewrite orchestrate_generate. fold (merged_variables request).
  generate_by_cases rt self (OrchestrationRequest.prompt request)
    (OrchestrationRequest.template_name request) (Some (merged_variables request)) w;
    rewrite Hgen; simpl; rewrite Hr in *; congruence.
Qed.

Lemma orchestrate_sends_rendering_witness :
  trace (snd (orchestrate (templating (text_reply "Hello!")) sample_self
                greeting_request start))
  = [MessagesCreate (anthropic.AsyncAnthropic "sk-test")
       {| anthropic.model := "claude-4";
          anthropic.max_tokens := 100000;
          anthropic.temperature := FLit "0.7";
          anthropic.messages := [("user", "Greet the user.")] |}].
Proof.
  apply (orchestrate_sends_rendering (templating (text_reply "Hello!")) sample_self
           greeting_request start "greeting"
           {| poml.source := PathDiv (Path_ "./templates") "greeting.poml" |}
           "Greet the user.").
  - reflexivity.
  - discriminate.
  - reflexivity.
  - reflexivity.
  - reflexivity.
  - reflexivity.
Defined.

(** ** What [orchestrate] gives back *)

Lemma py_or_not_None nz a s : py_or nz a (PStr s) <> PNone.
Proof.
  unfold py_or. destruct (truthy nz a) eqn:E; [|discriminate].
  intros ->. discriminate E.
Qed.

(** X14.  A record returned by [orchestrate] stems from a successful result:
    its content is the text of the result, or the empty string when that
    text is [None] (or empty, zero, false), so it is never [None]; its usage
    counters are zero; its model is the configured one and its tools are
    those of the request; its metadata holds the elapsed time and the model
    identifier. *)
Theorem orchestrate_record rt self request w resp w' :
  orchestrate rt self request w = (Return resp, w') ->
  (exists result,
     generate rt self (OrchestrationRequest.prompt request)
       (OrchestrationRequest.template_name request)
       (Some (merged_variables request)) w = (Return result, w') /\
     IntegratedResponse.success result = true /\
     OrchestrationResponse.content resp
       = py_or (nonzero rt) (IntegratedResponse.response result) (PStr "") /\
     OrchestrationResponse.confidence_score resp
       = IntegratedResponse.confidence_score result /\
     OrchestrationResponse.reasoning_chain resp
       = IntegratedResponse.reasoning_chain result) /\
  OrchestrationResponse.content resp <> PNone /\
  OrchestrationResponse.usage resp = [("input_tokens", 0%Z); ("output_tokens", 0%Z)] /\
  OrchestrationResponse.model resp = config.claude_model (config self) /\
  OrchestrationResponse.tools_used resp = or_empty (OrchestrationRequest.tools request) /\
  OrchestrationResponse.metadata resp
    = [("processing_time", PFloat (FSub (FClock (S (ticks w))) (FClock (ticks w))));
       ("model_used", PStr (config.claude_model (config self)))].
Proof.
  intros Ho. rewrite orchestrate_generate in Ho. fold (merged_variables request) in Ho.
  generate_by_cases rt self (OrchestrationRequest.prompt request)
    (OrchestrationRequest.template_name request) (Some (merged_variables request)) w;
    rewrite Hgen in Ho; cbn [IntegratedResponse.success] in Ho; try discriminate Ho;
    injection Ho as <- <-;
    (split; [eexists; split; [exact Hgen | repeat split] |]);
    (split; [apply py_or_not_None | repeat split]).
Qed.

Lemma orchestrate_record_witness :
  OrchestrationResponse.content
    {| OrchestrationResponse.content := PStr "";
       OrchestrationResponse.usage := [("input_tokens", 0%Z); ("output_tokens", 0%Z)];
       OrchestrationResponse.model := "claude-4";
       OrchestrationResponse.tools_used := ["validation"];
       OrchestrationResponse.metadata :=
         [("processing_time", PFloat (FSub (FClock 1) (FClock 0)));
          ("model_used", PStr "claude-4")];
       OrchestrationResponse.confidence_score := PNone;
       OrchestrationResponse.reasoning_chain := PList [] |} <> PNone.
Proof.
  apply (orchestrate_record (replying (text_reply null_text)) sample_self sample_request
           start _
           {| ticks := 2;
              trace := [MessagesCreate (anthropic.AsyncAnthropic "sk-test")
                          {| anthropic.model := "claude-4";
                             anthropic.max_tokens := 100000;
                             anthropic.temperature := FLit "0.7";
                             anthropic.messages := [("user", "Say hello")] |}] |}).
  vm_compute. reflexivity.
Defined.

(** X15.  An exception raised by [orchestrate] is a plain [Exception]; it
    stems from a failed result, and its message is the error of that result,
    or [Orchestration failed] when that error is empty: it is never
    empty. *)
Theorem orchestrate_exception rt self request w e w' :
  orchestrate rt self request w = (Raise e, w') ->
  exn_cls e = Exception_ /\
  exn_str e <> "" /\
  exists result,
    generate rt self (OrchestrationRequest.prompt request)
      (OrchestrationRequest.template_name request)
      (Some (merged_variables request)) w = (Return result, w') /\
    IntegratedResponse.success result = false /\
    exn_str e = str_or (IntegratedResponse.error result) "Orchestration failed".
Proof.
  intros Ho. rewrite orchestrate_generate in Ho. fold (merged_variables request) in Ho.
  generate_by_cases rt self (OrchestrationRequest.prompt request)
    (OrchestrationRequest.template_name request) (Some (merged_variables request)) w;
    rewrite Hgen in Ho; cbn [IntegratedResponse.success] in Ho; try discriminate Ho;
    injection Ho as <- <-;
    (split; [reflexivity|]);
    (split;
     [cbn [exn_str];
      match goal with
      | |- (if String.eqb ?s "" then _ else _) <> "" =>
          destruct (String.eqb_spec s ""); [discriminate | assumption]
      | |- _ => discriminate
      end|]);
    eexists; (split; [exact Hgen | split; reflexivity]).
Qed.

Lemma orchestrate_exception_witness :
  exn_cls (mkExn Exception_ "Orchestration failed") = Exception_ /\
  exn_str (mkExn Exception_ "Orchestration failed") <> "".
Proof.
  destruct (orchestrate_exception (replying (Raise silent_timeout)) sample_self
              sample_request start (mkExn Exception_ "Orchestration failed")
              {| ticks := 2;
                 trace := [MessagesCreate (anthropic.AsyncAnthropic "sk-test")
                             {| anthropic.model := "claude-4";
                                anthropic.max_tokens := 100000;
                                anthropic.temperature := FLit "0.7";
                                anthropic.messages := [("user", "Say hello")] |}] |})
    as (Hc & Hs & _).
  - vm_compute. reflexivity.
  - split; [exact Hc | exact Hs].
Defined.

(** ** Construction *)

(** X16.  Constructing the orchestrator succeeds exactly when the API key
    of the configuration in effect is not empty and the template directory
    can be made. *)
Theorem init_succeeds_iff rt defaults cfg w :
  (exists self w', __init__ rt defaults cfg w = (Return self, w')) <->
  config.anthropic_api_key (match cfg with Some c => c | None => defaults end) <> "" /\
  Path_mkdir rt
    (Path_ (config.templates_dir (match cfg with Some c => c | None => defaults end)))
    = Return tt.
Proof.
  unfold __init__, config.validate, bind, emit, lift, raise, ret.
  set (c := match cfg with Some c => c | None => defaults end).
  destruct (String.eqb_spec (config.anthropic_api_key c) "") as [Hk|Hk].
  - split; [intros (self & w' & H); discriminate H | intros [H _]; contradiction].
  - destruct (Path_mkdir rt (Path_ (config.templates_dir c))) as [[]|e].
    + split; [intros _; split; [exact Hk | reflexivity] | intros _; eauto].
    + split; [intros (self & w' & H); discriminate H | intros [_ H]; discriminate H].
Qed.

Lemma init_succeeds_iff_witness :
  exists self w',
    __init__ (replying (text_reply "Hello!")) sample_config None start = (Return self, w').
Proof.
  apply (proj2 (init_succeeds_iff (replying (text_reply "Hello!")) sample_config None
                  start)).
  split; [discriminate | reflexivity].
Defined.

(** X17.  A constructed orchestrator holds the configuration in effect, a
    client built with the key of that configuration, and the three tool
    names; by then the directory has been made and the client built, in this
    order, and the remote model has not been called. *)
Theorem init_result rt defaults cfg w self w' :
  __init__ rt defaults cfg w = (Return self, w') ->
  config self = match cfg with Some c => c | None => defaults end /\
  claude self = anthropic.AsyncAnthropic (config.anthropic_api_key (config self)) /\
  tools self = ["repository_search"; "code_generation"; "validation"] /\
  ticks w' = ticks w /\
  trace w'
    = (trace w ++ [Mkdir (Path_ (config.templates_dir (config self)));
                   NewClient (claude self)])%list.
Proof.
  unfold __init__, config.validate, bind, emit, lift, raise, ret.
  set (c := match cfg with Some c => c | None => defaults end).
  destruct (String.eqb (config.anthropic_api_key c) ""); [discriminate|].
  destruct (Path_mkdir rt (Path_ (config.templates_dir c))) as [[]|e]; [|discriminate].
  intros H. injection H as <- <-. simpl.
  rewrite <- app_assoc. repeat split.
Qed.

Lemma init_result_witness :
  config sample_self = sample_config /\
  claude sample_self = anthropic.AsyncAnthropic (config.anthropic_api_key (config sample_self)) /\
  tools sample_self = ["repository_search"; "code_generation"; "validation"] /\
  0 = 0 /\
  [Mkdir (Path_ "./templates"); NewClient (anthropic.AsyncAnthropic "sk-test")]
    = ([] ++ [Mkdir (Path_ (config.templates_dir (config sample_self)));
              NewClient (claude sample_self)])%list.
Proof.
  apply (init_result (replying (text_reply "Hello!")) sample_config None start
           sample_self
           {| ticks := 0;
              trace := [Mkdir (Path_ "./templates");
                        NewClient (anthropic.AsyncAnthropic "sk-test")] |}).
  reflexivity.
Defined.

(** X18.  When the directory cannot be made, construction raises the
    exception of [mkdir]; the attempt is the only call made, and no client
    is built. *)
Theorem init_mkdir_fails rt defaults cfg w e :
  config.anthropic_api_key (match cfg with Some c => c | None => defaults end) <> "" ->
  Path_mkdir rt
    (Path_ (config.templates_dir (match cfg with Some c => c | None => defaults end)))
    = Raise e ->
  __init__ rt defaults cfg w
    = (Raise e,
       logged (Mkdir (Path_ (config.templates_dir
                               (match cfg with Some c => c | None => defaults end)))) w).
Proof.
  intros Hk Hm.
  unfold __init__, config.validate, bind, emit, lift, raise, ret.
  apply String.eqb_neq in Hk. rewrite Hk, Hm. reflexivity.
Qed.

Lemma init_mkdir_fails_witness :
  __init__ read_only_disk sample_config None start
    = (Raise (mkExn (OtherError "PermissionError")
                "[Errno 13] Permission denied: 'templates'"),
       {| ticks := 0; trace := [Mkdir (Path_ "./templates")] |}).
Proof.
  apply (init_mkdir_fails read_only_disk sample_config None start).
  - discriminate.
  - reflexivity.
Defined.

(** ** The health check *)

(** X19.  A health check sends one ping, with the configured model, a
    budget of 10 tokens and the single user message [ping], and always
    returns a report: [healthy], with the model, the engine flag and the tool
    names, when the ping is answered, whatever the answer; [unhealthy], with
    the string form of the exception and nothing else, when it raises. *)
Theorem health_check_report pr self sent :
  exists report,
    health.health_check pr self sent
      = (Return report,
         (sent ++ [(claude self,
                    {| health.model := config.claude_model (config self);
                       health.max_tokens := 10;
                       health.messages := [("user", "ping")] |})])%list) /\
    ((exists rsp,
        health.messages_create pr (claude self)
          {| health.model := config.claude_model (config self);
             health.max_tokens := 10;
             health.messages := [("user", "ping")] |} = Return rsp /\
        report = [("status", PStr "healthy");
                  ("model", PStr (config.claude_model (config self)));
                  ("has_poml", PBool (HAS_POML (health.runtime pr)));
                  ("tools_available", PList (map PStr (tools self)))])
     \/
     (exists e,
        health.messages_create pr (claude self)
          {| health.model := config.claude_model (config self);
             health.max_tokens := 10;
             health.messages := [("user", "ping")] |} = Raise e /\
        report = [("status", PStr "unhealthy"); ("error", PStr (exn_str e))])).
Proof.
  unfold health.health_check, st_try, st_bind, health.create, st_ret.
  destruct (health.messages_create pr (claude self) _) as [rsp|e] eqn:Hm.
  - eexists. split; [reflexivity|]. left. exists rsp. split; reflexivity.
  - eexists. split; [reflexivity|]. right. exists e. split; reflexivity.
Qed.

Example health_check_samples :
  fst (health.health_check answered_probe sample_self [])
  = Return [("status", PStr "healthy");
            ("model", PStr "claude-4");
            ("has_poml", PBool false);
            ("tools_available",
              PList [PStr "repository_search"; PStr "code_generation"; PStr "validation"])]
  /\
  fst (health.health_check refused_probe sample_self [])
  = Return [("status", PStr "unhealthy");
            ("error", PStr "Error code: 401 - invalid x-api-key")].
Proof. split; reflexivity. Qed.

(** ** The endpoints *)

Lemma generate_returns rt self prompt tn vars w :
  exists r w' meta,
    generate rt self prompt tn vars w = (Return r, w') /\
    IntegratedResponse.metadata r = Some meta /\
    (IntegratedResponse.success r = true /\ IntegratedResponse.error r = None
     \/
     IntegratedResponse.success r = false /\
     IntegratedResponse.response r = PNone /\
     exists msg, IntegratedResponse.error r = Some msg).
Proof.
  generate_by_cases rt self prompt tn vars w;
    eexists; eexists; eexists; (split; [exact Hgen|]); (split; [reflexivity|]);
    first [ left; split; reflexivity
          | right; split; [reflexivity|]; split; [reflexivity|]; eexists; reflexivity ].
Qed.

(** X20.  [POST /generate] always returns a body, the seven fields of the
    result under their names: on a success [success] is true and [error] is
    [None]; on a failure [success] is false, [response] is [None] and
    [error] is a string. *)
Theorem endpoint_generate_body rt a p w :
  exists res w' body,
    generate rt (service.ai a) (service.prompt p) (service.template_name p)
      (service.variables p) w = (Return res, w') /\
    endpoints.generate rt a p w = (Return body, w') /\
    map fst body = ["success"; "response"; "error"; "metadata"; "confidence_score";
                    "reasoning_chain"; "localized_elements"] /\
    dict_lookup body "response" = Some (IntegratedResponse.response res) /\
    (dict_lookup body "success" = Some (PBool true) /\
     dict_lookup body "error" = Some PNone
     \/
     dict_lookup body "success" = Some (PBool false) /\
     dict_lookup body "response" = Some PNone /\
     exists msg, dict_lookup body "error" = Some (PStr msg)).
Proof.
  destruct (generate_returns rt (service.ai a) (service.prompt p)
              (service.template_name p) (service.variables p) w)
    as (res & w' & meta & Hg & Hm & Hcase).
  exists res, w'. eexists. split; [exact Hg|].
  split; [unfold endpoints.generate, bind; rewrite Hg; reflexivity|].
  split; [reflexivity|]. split; [reflexivity|].
  unfold endpoints.__dict__. simpl.
  destruct Hcase as [(Hs & He) | (Hs & Hr & msg & He)]; rewrite Hs, He.
  - left. split; reflexivity.
  - right. rewrite Hr. split; [reflexivity|]. split; [reflexivity|].
    exists msg. reflexivity.
Qed.

(** X21.  On the same payload [POST /orchestrate] and [POST /generate] run
    the same generation and leave the same world.  The body of
    [/orchestrate] repeats the text, the metadata, the score and the steps
    of the body of [/generate] and has no entry for the success flag, the
    error and the localized elements: a failure shows there only as a
    [None] content. *)
Theorem endpoints_agree rt a p w :
  exists full legacy w',
    endpoints.generate rt a p w = (Return full, w') /\
    service.orchestrate rt a p w = (Return legacy, w') /\
    dict_lookup legacy "content" = dict_lookup full "response" /\
    dict_lookup legacy "metadata" = dict_lookup full "metadata" /\
    dict_lookup legacy "confidence_score" = dict_lookup full "confidence_score" /\
    dict_lookup legacy "reasoning_chain" = dict_lookup full "reasoning_chain" /\
    dict_lookup legacy "success" = None /\
    dict_lookup legacy "error" = None /\
    dict_lookup legacy "localized_elements" = None.
Proof.
  destruct (generate_returns rt (service.ai a) (service.prompt p)
              (service.template_name p) (service.variables p) w)
    as (res & w' & meta & Hg & Hm & _).
  eexists; eexists; exists w'.
  split; [unfold endpoints.generate, bind; rewrite Hg; reflexivity|].
  split; [unfold service.orchestrate, bind; rewrite Hg; reflexivity|].
  unfold endpoints.__dict__. simpl. rewrite Hm. repeat split.
Qed.

(** X22.  In a loaded service the configuration of the orchestrator is the
    one the service holds, so the [model] of every [/orchestrate] body is
    the model the generation is run with. *)
Theorem loaded_service_model rt defaults w0 a w1 p w :
  service.load rt defaults w0 = (Return a, w1) ->
  service.cfg a = defaults /\
  config (service.ai a) = defaults /\
  exists body w',
    service.orchestrate rt a p w = (Return body, w') /\
    dict_lookup body "model" = Some (PStr (config.claude_model (config (service.ai a)))).
Proof.
  intros Hl. unfold service.load, bind in Hl.
  destruct (__init__ rt defaults (Some defaults) w0) as [[self|e] w0'] eqn:Hi;
    [|discriminate].
  injection Hl as <- <-.
  assert (Hc : config self = defaults).
  { revert Hi. unfold __init__, config.validate, bind, emit, lift, raise, ret.
    destruct (String.eqb _ _); [discriminate|].
    destruct (Path_mkdir rt _) as [[]|e]; [|discriminate].
    intros H. injection H as <- _. reflexivity. }
  split; [reflexivity|]. split; [exact Hc|].
  destruct (generate_returns rt self (service.prompt p) (service.template_name p)
              (service.variables p) w) as (res & w' & meta & Hg & _).
  eexists; exists w'. split.
  - unfold service.orchestrate, bind. simpl. rewrite Hg. reflexivity.
  - simpl. rewrite Hc. reflexivity.
Qed.

Lemma loaded_service_model_witness :
  service.cfg sample_app = sample_config /\
  config (service.ai sample_app) = sample_config /\
  exists body w',
    service.orchestrate (replying (text_reply "Hello!")) sample_app sample_payload start
      = (Return body, w') /\
    dict_lookup body "model"
      = Some (PStr (config.claude_model (config (service.ai sample_app)))).
Proof.
  apply (loaded_service_model (replying (text_reply "Hello!")) sample_config start
           sample_app
           {| ticks := 0;
              trace := [Mkdir (Path_ "./templates");
                        NewClient (anthropic.AsyncAnthropic "sk-test")] |}
           sample_payload start).
  reflexivity.
Defined.

(** ** Setting up the project *)

Lemma lookup_store_same fs p n : quick_start.lookup (quick_start.store fs p n) p = Some n.
Proof.
  induction fs as [|[p' n'] fs IH]; simpl.
  - rewrite String.eqb_refl. reflexivity.
  - destruct (String.eqb p' p) eqn:E; simpl.
    + rewrite String.eqb_refl. reflexivity.
    + rewrite E. exact IH.
Qed.

Lemma lookup_store_other fs p n q :
  q <> p -> quick_start.lookup (quick_start.store fs p n) q = quick_start.lookup fs q.
Proof.
  intros Hq. induction fs as [|[p0 n0] fs IH]; simpl.
  - destruct (String.eqb_spec p q); [congruence | reflexivity].
  - destruct (String.eqb_spec p0 p) as [->|Hn]; simpl.
    + destruct (String.eqb_spec p q); [congruence | reflexivity].
    + destruct (String.eqb p0 q); [reflexivity | exact IH].
Qed.


(** One [mkdir]: it fails on a file and makes or keeps a directory
    otherwise, touching no other path and printing nothing. *)
Lemma mkdir_cases d m :
  (exists c,
     quick_start.lookup (quick_start.files m) d = Some (quick_start.File c) /\
     quick_start.mkdir d m
       = (Raise (quick_start.OSError "FileExistsError" "17" "File exists" d), m))
  \/
  ((forall c, quick_start.lookup (quick_start.files m) d <> Some (quick_start.File c)) /\
   exists m',
     quick_start.mkdir d m = (Return tt, m') /\
     quick_start.stdout m' = quick_start.stdout m /\
     quick_start.lookup (quick_start.files m') d = Some quick_start.Dir /\
     forall q, q <> d ->
       quick_start.lookup (quick_start.files m') q
         = quick_start.lookup (quick_start.files m) q).
Proof.
  unfold quick_start.mkdir.
  destruct (quick_start.lookup (quick_start.files m) d) as [[|c]|] eqn:E.
  - right. split; [discriminate|]. exists m. repeat split; auto.
  - left. exists c. split; reflexivity.
  - right. split; [discriminate|]. eexists. split; [reflexivity|]. simpl.
    split; [reflexivity|]. split; [apply lookup_store_same|].
    intros q Hq. apply lookup_store_other. exact Hq.
Qed.

(** The loop over the directories when none of the names is a file. *)
Lemma for_each_mkdir_returns ds :
  forall m,
    (forall d, In d ds ->
       forall c, quick_start.lookup (quick_start.files m) d <> Some (quick_start.File c)) ->
    exists m',
      quick_start.for_each ds quick_start.mkdir m = (Return tt, m') /\
      quick_start.stdout m' = quick_start.stdout m /\
      (forall d, In d ds ->
         quick_start.lookup (quick_start.files m') d = Some quick_start.Dir) /\
      (forall q, ~ In q ds ->
         quick_start.lookup (quick_start.files m') q
           = quick_start.lookup (quick_start.files m) q).
Proof.
  induction ds as [|d ds IH]; intros m Hfree.
  - exists m. repeat split; auto. intros d [].
  - destruct (mkdir_cases d m) as [(c & Hc & _) | (_ & m1 & Hm & Hout & Hd & Hoth)].
    { exfalso. exact (Hfree d (or_introl eq_refl) c Hc). }
    destruct (IH m1) as (m' & Hloop & Hout' & Hdirs & Hrest).
    { intros d' Hin c. destruct (string_dec d' d) as [->|Hne].
      - rewrite Hd. discriminate.
      - rewrite (Hoth d' Hne). apply Hfree. right. exact Hin. }
    exists m'. split; [|split; [|split]].
    + simpl. unfold st_bind. rewrite Hm. exact Hloop.
    + congruence.
    + intros d' [<-|Hin]; [|apply Hdirs; exact Hin].
      destruct (in_dec string_dec d ds) as [Hin|Hnin]; [apply Hdirs; exact Hin|].
      rewrite (Hrest d Hnin). exact Hd.
    + intros q Hq. rewrite Hrest by (intros Hin; apply Hq; right; exact Hin).
      apply Hoth. intros ->. apply Hq. left. reflexivity.
Qed.

(** The loop when one of the names is a file: it raises at the first such
    name and prints nothing. *)
Lemma for_each_mkdir_raises ds :
  forall m d c,
    In d ds ->
    quick_start.lookup (quick_start.files m) d = Some (quick_start.File c) ->
    exists d' m',
      In d' ds /\
      quick_start.for_each ds quick_start.mkdir m
        = (Raise (quick_start.OSError "FileExistsError" "17" "File exists" d'), m') /\
      quick_start.stdout m' = quick_start.stdout m.
Proof.
  induction ds as [|d0 ds IH]; intros m d c Hin Hfile; [destruct Hin|].
  destruct (mkdir_cases d0 m) as [(c0 & Hc0 & Hm) | (Hfree & m1 & Hm & Hout & Hd & Hoth)].
  - exists d0, m. split; [left; reflexivity|]. split; [|reflexivity].
    simpl. unfold st_bind. rewrite Hm. reflexivity.
  - destruct Hin as [->|Hin]; [exfalso; exact (Hfree c Hfile)|].
    assert (Hne : d <> d0) by (intros ->; exact (Hfree c Hfile)).
    destruct (IH m1 d c Hin) as (d' & m' & Hin' & Hloop & Hout').
    { rewrite (Hoth d Hne). exact Hfile. }
    exists d', m'. split; [right; exact Hin'|]. split; [|congruence].
    simpl. unfold st_bind. rewrite Hm. exact Hloop.
Qed.

Lemma names_free_or_taken ds fs :
  (forall d, In d ds -> forall c, quick_start.lookup fs d <> Some (quick_start.File c))
  \/ (exists d c, In d ds /\ quick_start.lookup fs d = Some (quick_start.File c)).
Proof.
  induction ds as [|d ds [IH|(d' & c & Hin & Hc)]].
  - left. intros d [].
  - destruct (quick_start.lookup fs d) as [[|c]|] eqn:E.
    + left. intros d' [<-|Hin] c; [rewrite E; discriminate | apply IH; exact Hin].
    + right. exists d, c. split; [left; reflexivity | exact E].
    + left. intros d' [<-|Hin] c; [rewrite E; discriminate | apply IH; exact Hin].
  - right. exists d', c. split; [right; exact Hin | exact Hc].
Qed.


(** X23.  When [setup_project] returns, each of the six directories exists,
    the sample template holds the sample text, every other path is as it
    was, and the two lines have been printed. *)
Theorem setup_project_result m m' :
  quick_start.setup_project m = (Return tt, m') ->
  (forall d, In d quick_start.directories ->
     quick_start.lookup (quick_start.files m') d = Some quick_start.Dir) /\
  quick_start.lookup (quick_start.files m') "templates/sample_template.poml"
    = Some (quick_start.File quick_start.sample_template) /\
  (forall q, ~ In q quick_start.directories -> q <> "templates/sample_template.poml" ->
     quick_start.lookup (quick_start.files m') q
       = quick_start.lookup (quick_start.files m) q) /\
  quick_start.stdout m'
    = (quick_start.stdout m
         ++ [quick_start.opening_line; quick_start.closing_line])%list.
Proof.
  intros H.
  set (m0 := {| quick_start.files := quick_start.files m;
                quick_start.stdout :=
                  (quick_start.stdout m
                     ++ [quick_start.opening_line])%list |}).
  destruct (names_free_or_taken quick_start.directories (quick_start.files m0))
    as [Hfree | (d & c & Hin & Hc)].
  2:{ destruct (for_each_mkdir_raises _ m0 d c Hin Hc) as (d' & m1 & _ & Hloop & _).
      unfold quick_start.setup_project, st_bind, quick_start.print in H.
      fold m0 in H. rewrite Hloop in H. discriminate H. }
  destruct (for_each_mkdir_returns _ m0 Hfree) as (m1 & Hloop & Hout & Hdirs & Hrest).
  unfold quick_start.setup_project, st_bind, quick_start.print in H.
  fold m0 in H. rewrite Hloop in H.
  unfold quick_start.write_text in H.
  rewrite (Hdirs "templates") in H by (left; reflexivity).
  change ("templates" ++ "/" ++ "sample_template.poml")
    with "templates/sample_template.poml" in H.
  destruct (quick_start.lookup (quick_start.files m1) "templates/sample_template.poml")
    as [[|c]|] eqn:E; try discriminate H;
    injection H as <-; simpl.
  all: split; [intros d Hd; rewrite lookup_store_other;
                 [apply Hdirs; exact Hd
                 | intros ->; simpl in Hd; intuition discriminate]|].
  all: split; [apply lookup_store_same|].
  all: split; [intros q Hq Hne; rewrite lookup_store_other by exact Hne;
                 apply Hrest; exact Hq|].
  all: rewrite Hout; unfold m0; simpl; rewrite <- app_assoc; reflexivity.
Qed.

Lemma setup_project_result_witness :
  quick_start.lookup
    (quick_start.files (snd (quick_start.setup_project empty_machine)))
    "templates/sample_template.poml"
  = Some (quick_start.File quick_start.sample_template).
Proof.
  apply (setup_project_result empty_machine
           (snd (quick_start.setup_project empty_machine))).
  vm_compute. reflexivity.
Defined.

(** X24.  [setup_project] returns exactly when none of the six names is
    taken by a file and the path of the sample template is not taken by a
    directory. *)
Theorem setup_project_returns_iff m :
  (exists m', quick_start.setup_project m = (Return tt, m')) <->
  (forall d, In d quick_start.directories ->
     forall c, quick_start.lookup (quick_start.files m) d <> Some (quick_start.File c)) /\
  quick_start.lookup (quick_start.files m) "templates/sample_template.poml"
    <> Some quick_start.Dir.
Proof.
  set (m0 := {| quick_start.files := quick_start.files m;
                quick_start.stdout :=
                  (quick_start.stdout m
                     ++ [quick_start.opening_line])%list |}).
  assert (Hnot : ~ In "templates/sample_template.poml" quick_start.directories).
  { simpl. intuition discriminate. }
  destruct (names_free_or_taken quick_start.directories (quick_start.files m0))
    as [Hfree | (d & c & Hin & Hc)].
  - destruct (for_each_mkdir_returns _ m0 Hfree) as (m1 & Hloop & Hout & Hdirs & Hrest).
    assert (Hrun : quick_start.setup_project m
                   = (quick_start.write_text "templates" "sample_template.poml"
                        quick_start.sample_template ;;~
                      quick_start.print quick_start.closing_line) m1).
    { unfold quick_start.setup_project, st_bind, quick_start.print.
      fold m0. rewrite Hloop. reflexivity. }
    rewrite Hrun. unfold st_bind, quick_start.write_text, quick_start.print.
    rewrite (Hdirs "templates") by (left; reflexivity).
    change ("templates" ++ "/" ++ "sample_template.poml")
      with "templates/sample_template.poml".
    rewrite (Hrest _ Hnot). simpl.
    destruct (quick_start.lookup (quick_start.files m) "templates/sample_template.poml")
      as [[|c]|] eqn:E.
    + split; [intros (m' & H); discriminate H | intros [_ H]; contradiction].
    + split; [intros _; split; [exact Hfree | discriminate] | intros _; eauto].
    + split; [intros _; split; [exact Hfree | discriminate] | intros _; eauto].
  - destruct (for_each_mkdir_raises _ m0 d c Hin Hc) as (d' & m1 & _ & Hloop & _).
    split.
    + intros (m' & H).
      unfold quick_start.setup_project, st_bind, quick_start.print in H.
      fold m0 in H. rewrite Hloop in H. discriminate H.
    + intros [Hfree _]. exfalso. exact (Hfree d Hin c Hc).
Qed.

Lemma setup_project_returns_iff_witness :
  exists m', quick_start.setup_project empty_machine = (Return tt, m').
Proof.
  apply (proj2 (setup_project_returns_iff empty_machine)).
  split; [intros d _ c; discriminate | discriminate].
Defined.



(** *** On any platform *)

Lemma store_store fs p n n' :
  quick_start.store (quick_start.store fs p n) p n' = quick_start.store fs p n'.
Proof.
  induction fs as [|[p0 n0] fs IH]; simpl.
  - rewrite String.eqb_refl. reflexivity.
  - destruct (String.eqb p0 p) eqn:E; simpl.
    + rewrite String.eqb_refl. reflexivity.
    + rewrite E. rewrite IH. reflexivity.
Qed.

(** On the platform that refuses nothing, [setup_project_on] is
    [setup_project]. *)
Lemma for_each_mkdir_on_willing ds m :
  quick_start.for_each ds (quick_start.mkdir_on quick_start.willing) m
    = quick_start.for_each ds quick_start.mkdir m.
Proof.
  revert m. induction ds as [|d ds IH]; intros m; [reflexivity|].
  simpl. unfold st_bind.
  change (quick_start.mkdir_on quick_start.willing d m) with (quick_start.mkdir d m).
  destruct (quick_start.mkdir d m) as [[[]|e] m1]; [apply IH | reflexivity].
Qed.

Lemma write_text_on_willing dir name content m :
  quick_start.write_text_on quick_start.willing dir name content m
    = quick_start.write_text dir name content m.
Proof.
  unfold quick_start.write_text_on, st_bind, quick_start.asking, quick_start.write_text.
  cbn [quick_start.refuses quick_start.willing].
  destruct (quick_start.lookup (quick_start.files m) dir) as [[|c]|]; try reflexivity.
  destruct (quick_start.lookup (quick_start.files m) (dir ++ "/" ++ name))
    as [[|c]|]; try reflexivity;
    cbn [quick_start.files quick_start.stdout]; rewrite store_store; reflexivity.
Qed.

Lemma setup_project_on_willing m :
  quick_start.setup_project_on quick_start.willing m = quick_start.setup_project m.
Proof.
  unfold quick_start.setup_project_on, quick_start.setup_project, st_bind.
  change (quick_start.print_on quick_start.willing quick_start.opening_line m)
    with (quick_start.print quick_start.opening_line m).
  destruct (quick_start.print quick_start.opening_line m) as [[[]|e] m0];
    [|reflexivity].
  rewrite for_each_mkdir_on_willing.
  destruct (quick_start.for_each quick_start.directories quick_start.mkdir m0)
    as [[[]|e] m1]; [|reflexivity].
  rewrite write_text_on_willing.
  destruct (quick_start.write_text "templates" "sample_template.poml"
              quick_start.sample_template m1) as [[[]|e] m2]; reflexivity.
Qed.




(** The earlier failures, on the platform that refuses nothing and in a
    directory that may not be written to. *)
Example setup_project_on_samples :
  quick_start.setup_project_on quick_start.willing cache_is_a_file
    = (Raise (quick_start.OSError "FileExistsError" "17" "File exists" "cache"),
       {| quick_start.files := quick_start.files cache_is_a_file;
          quick_start.stdout := [quick_start.opening_line] |}) /\
  quick_start.setup_project_on read_only_directory empty_machine
    = (Raise (quick_start.OSError "PermissionError" "13" "Permission denied"
                "templates"),
       {| quick_start.files := [];
          quick_start.stdout := [quick_start.opening_line] |}) /\
  quick_start.setup_project_on read_only_directory
    {| quick_start.files := map (fun d => (d, quick_start.Dir)) quick_start.directories;
       quick_start.stdout := [] |}
    = (Raise (quick_start.OSError "PermissionError" "13" "Permission denied"
                "templates/sample_template.poml"),
       {| quick_start.files :=
            map (fun d => (d, quick_start.Dir)) quick_start.directories;
          quick_start.stdout := [quick_start.opening_line] |}).
Proof. repeat split; vm_compute; reflexivity. Qed.
